(** * Resume extraction pipeline: completeness scoring and response handling

    A shallow embedding of [Backend/gemini_processor.py]:
    the completeness scorer [_calculate_resume_completeness] and the
    pipeline [extract_info_with_gemini] (prompt construction, location of
    the text payload in the model response, JSON decoding, scoring and
    error reporting), together with the properties the specification
    states about them.

    Python values are modelled as the interpreter has them after
    [json.loads]: [None], [bool], [int], [float], [str] (a sequence of
    Unicode code points), [list] and [dict] (a finite map keyed by
    strings).  Exceptions are modelled with an error monad.

    The development also embeds the file-type test and the text extractors
    of [Backend/utils.py], the constants of [Backend/config.py] they use,
    and the upload route of [Backend/main.py], with the libraries they call
    (file system, PDF and DOCX readers, Unicode tables) as parameters. *)

From Stdlib Require Import ZArith Floats.
From stdpp Require Import gmap strings list fin_maps.

#[local] Set Warnings "-register-all".

(** * Part I: the program *)

(** ** Python strings *)

(** A Python [str] is a sequence of Unicode code points. *)
Definition pystr : Type := list N.

(** The [str] denoted by an ASCII literal. *)
Definition py (s : string) : pystr :=
  Ascii.N_of_ascii <$> String.list_ascii_of_string s.

(** [str.isspace] on one code point, as CPython's [_PyUnicode_IsWhitespace]
    decides it; this is the set of characters [str.strip()] removes. *)
Definition isspace (c : N) : bool :=
  ((0x09 <=? c) && (c <=? 0x0D) || (0x1C <=? c) && (c <=? 0x20)
   || (c =? 0x85) || (c =? 0xA0) || (c =? 0x1680)
   || (0x2000 <=? c) && (c <=? 0x200A)
   || (c =? 0x2028) || (c =? 0x2029) || (c =? 0x202F)
   || (c =? 0x205F) || (c =? 0x3000))%N.

Fixpoint lstrip (s : pystr) : pystr :=
  match s with
  | [] => []
  | c :: r => if isspace c then lstrip r else s
  end.

Definition rstrip (s : pystr) : pystr := reverse (lstrip (reverse s)).

(** [s.strip()] *)
Definition strip (s : pystr) : pystr := rstrip (lstrip s).

(** ** Python values and exceptions *)

Inductive pyval : Type :=
| PNone
| PBool (b : bool)
| PInt (z : Z)
| PFloat (f : float)
| PStr (s : list N)
| PList (l : list pyval)
| PDict (d : gmap (list N) pyval).

(** [bool(v)]: the truth value Python gives to [v]. *)
Definition truthy (v : pyval) : bool :=
  match v with
  | PNone => false
  | PBool b => b
  | PInt z => negb (z =? 0)%Z
  | PFloat f => negb (PrimFloat.eqb f 0%float)
  | PStr s => negb (bool_decide (s = []))
  | PList l => negb (bool_decide (l = []))
  | PDict d => negb (bool_decide (d = ∅))
  end.

(** [type(v).__name__] *)
Definition type_name (v : pyval) : string :=
  match v with
  | PNone => "NoneType"
  | PBool _ => "bool"
  | PInt _ => "int"
  | PFloat _ => "float"
  | PStr _ => "str"
  | PList _ => "list"
  | PDict _ => "dict"
  end.

(** The exceptions the module can see.  [HTTPException] is FastAPI's, with
    its status code, detail and headers; [ModelError] stands for anything
    the model client raises. *)
Inductive exn : Type :=
| AttributeError (msg : pystr)
| ValueError (msg : pystr)
| OverflowError (msg : pystr)
| ModelError (msg : pystr)
| HTTPException (status_code : Z) (detail : pystr) (headers : list (pystr * pystr)).

(** A computation either returns a value or raises. *)
Inductive result (A : Type) : Type :=
| Ok (a : A)
| Raise (e : exn).
Arguments Ok {A} a.
Arguments Raise {A} e.

#[global] Instance result_ret : MRet result := λ A a, Ok a.
#[global] Instance result_bind : MBind result := λ A B f m,
  match m with
  | Ok a => f a
  | Raise e => Raise e
  end.

(** [str(e)] *)
Definition exn_str (e : exn) : pystr :=
  match e with
  | AttributeError m | ValueError m | OverflowError m | ModelError m => m
  | HTTPException c d _ => d
  end.

(** [d.get(k)]: the value stored under [k], or [None]. *)
Definition dict_get (d : gmap (list N) pyval) (k : pystr) : pyval :=
  default PNone (d !! k).

(** [v.get(k)] on an arbitrary value: only a [dict] has the method. *)
Definition py_get (v : pyval) (k : pystr) : result pyval :=
  match v with
  | PDict d => Ok (dict_get d k)
  | _ => Raise (AttributeError
           (py ("'" +:+ type_name v +:+ "' object has no attribute 'get'")))
  end.

(** ** Float arithmetic of the percentage *)

(** [float(n)] for an [int] that a double represents exactly. *)
Definition float_of_int (n : Z) : float := PrimFloat.of_uint63 (Uint63.of_Z n).

(** [a / b] on ints (true division), for operands that a double represents
    exactly: the correctly rounded quotient. *)
Definition true_div (a b : Z) : float :=
  PrimFloat.div (float_of_int a) (float_of_int b).

(** [int(x)]: truncation towards zero; raises on infinities and NaN. *)
Definition py_int (x : float) : result Z :=
  match Prim2SF x with
  | S754_zero _ => Ok 0%Z
  | S754_finite s m e =>
      let a := if (0 <=? e)%Z then (Z.pos m * 2 ^ e)%Z
               else (Z.pos m / 2 ^ (- e))%Z in
      Ok (if s then (- a)%Z else a)
  | S754_infinity _ =>
      Raise (OverflowError (py "cannot convert float infinity to integer"))
  | S754_nan => Raise (ValueError (py "cannot convert float NaN to integer"))
  end.

(** ** The completeness scorer *)

(** [all(entry(item) for item in arr)]: stops at the first falsy entry, and
    an entry that raises ends the evaluation. *)
Fixpoint py_all (entry : pyval → result bool) (arr : list pyval) : result bool :=
  match arr with
  | [] => Ok true
  | item :: rest =>
      b ← entry item;
      if b : bool then py_all entry rest else Ok false
  end.

(** [item.get(a) and item.get(b)], read as a truth value. *)
Definition requires2 (a b : string) (item : pyval) : result bool :=
  x ← py_get item (py a);
  if truthy x then y ← py_get item (py b); Ok (truthy y) else Ok false.

(** [item.get(a)], read as a truth value. *)
Definition requires1 (a : string) (item : pyval) : result bool :=
  x ← py_get item (py a); Ok (truthy x).

(** [lambda x: isinstance(x, str) and bool(x.strip())] *)
Definition check_scalar (x : pyval) : result bool :=
  match x with
  | PStr s => Ok (negb (bool_decide (strip s = [])))
  | _ => Ok false
  end.

(** [lambda arr: isinstance(arr, list) and len(arr) > 0 and all(...)] *)
Definition check_entries (entry : pyval → result bool) (arr : pyval) : result bool :=
  match arr with
  | PList l => if (0 <? length l)%nat then py_all entry l else Ok false
  | _ => Ok false
  end.

(** [lambda arr: isinstance(arr, list) and len(arr) > 0] *)
Definition check_nonempty (arr : pyval) : result bool :=
  match arr with
  | PList l => Ok (0 <? length l)%nat
  | _ => Ok false
  end.

(** The rubric, in the insertion order of the source dict. *)
Definition completeness_criteria : list (string * (pyval → result bool)) :=
  [ ("firstName", check_scalar);
    ("lastName", check_scalar);
    ("professionalTitle", check_scalar);
    ("email", check_scalar);
    ("phone", check_scalar);
    ("location", check_scalar);
    ("linkedinURL", check_scalar);
    ("website", check_scalar);
    ("professionalSummary", check_scalar);
    ("workExperience", check_entries (requires2 "jobTitle" "company"));
    ("education", check_entries (requires2 "degreeCertification" "institutionName"));
    ("skills", check_entries (requires1 "name"));
    ("languages", check_entries (requires1 "name"));
    ("certifications", check_nonempty) ].

(** The condition of the loop body:
    [value = extracted_data.get(field)], then
    [value is not None and check_func(value)]. *)
Definition field_populated (extracted_data : pyval)
    (fc : string * (pyval → result bool)) : result bool :=
  value ← py_get extracted_data (py fc.1);
  match value with
  | PNone => Ok false
  | _ => fc.2 value
  end.

(** The [for] loop over the rubric, threading [populated_fields] and
    [missing_fields]. *)
Fixpoint score_loop (extracted_data : pyval)
    (criteria : list (string * (pyval → result bool)))
    (populated_fields : Z) (missing_fields : list string)
    : result (Z * list string) :=
  match criteria with
  | [] => Ok (populated_fields, missing_fields)
  | fc :: rest =>
      ok ← field_populated extracted_data fc;
      if ok : bool
      then score_loop extracted_data rest (populated_fields + 1)%Z missing_fields
      else score_loop extracted_data rest populated_fields (missing_fields ++ [fc.1])
  end.

(** [int((populated_fields / total_fields) * 100)] *)
Definition percentage_of (populated_fields total_fields : Z) : result Z :=
  py_int (PrimFloat.mul (true_div populated_fields total_fields) (float_of_int 100)).

Definition _calculate_resume_completeness (extracted_data : pyval)
    : result (Z * list string) :=
  let total_fields := Z.of_nat (length completeness_criteria) in
  '(populated_fields, missing_fields) ←
     score_loop extracted_data completeness_criteria 0%Z [];
  if (total_fields =? 0)%Z then Ok (0%Z, missing_fields)
  else
    completeness_percentage ← percentage_of populated_fields total_fields;
    Ok (Z.min completeness_percentage 100, missing_fields).

(** ** The prompt *)

(** The double quote character and a newline. *)
Definition dquote : string := String (Ascii.ascii_of_nat 34) EmptyString.
Definition newline : string := String (Ascii.ascii_of_nat 10) EmptyString.

(** [s] between double quotes. *)
Definition q (s : string) : string := dquote +:+ s +:+ dquote.

(** The lines of the prompt template up to the resume text (the replacement field [{text_content}] is on the last of them). *)
Definition prompt_before : list string :=
  [ "";
    "    Analyze the following resume text and extract the specified information.";
    "    Return the information as a single, valid JSON object. Do NOT use markdown like ```json ... ```.";
    "    The JSON object must strictly adhere to the following keys and structures.";
    "    If a key's information is not found, use `null` for string fields or an empty array `[]` for array fields.";
    "    For arrays of objects, if no suitable entry is found, the array should be empty `[]`.";
    "";
    "    Expected JSON Structure:";
    "    {";
    "      " +:+ q "firstName" +:+ ": " +:+ q "string (e.g., 'John')" +:+ ",";
    "      " +:+ q "lastName" +:+ ": " +:+ q "string (e.g., 'Doe')" +:+ ",";
    "      " +:+ q "professionalTitle" +:+ ": " +:+ q "string (e.g., 'Software Engineer', 'Project Manager')" +:+ ",";
    "      " +:+ q "email" +:+ ": " +:+ q "string (e.g., 'john.doe@example.com')" +:+ ",";
    "      " +:+ q "phone" +:+ ": " +:+ q "string (e.g., '+1-123-456-7890' or '123.456.7890')" +:+ ",";
    "      " +:+ q "location" +:+ ": " +:+ q "string (e.g., 'Bengaluru, India' or 'San Francisco, CA')" +:+ ",";
    "      " +:+ q "linkedinURL" +:+ ": " +:+ q "string (full URL, e.g., 'https://www.linkedin.com/in/johndoe')" +:+ ",";
    "      " +:+ q "website" +:+ ": " +:+ q "string (full URL, e.g., 'https://johndoeportfolio.com')" +:+ ",";
    "      " +:+ q "professionalSummary" +:+ ": " +:+ q "string (concise summary of professional experience and goals)" +:+ ",";
    "      " +:+ q "workExperience" +:+ ": [";
    "        {";
    "          " +:+ q "jobTitle" +:+ ": " +:+ q "string (e.g., 'Senior Software Engineer')" +:+ ",";
    "          " +:+ q "company" +:+ ": " +:+ q "string (e.g., 'Google')" +:+ ",";
    "          " +:+ q "location" +:+ ": " +:+ q "string (e.g., 'Mountain View, CA')" +:+ ",";
    "          " +:+ q "startDate" +:+ ": " +:+ q "string (e.g., 'Jan 2020' or '2020')" +:+ ",";
    "          " +:+ q "endDate" +:+ ": " +:+ q "string (e.g., 'Dec 2022' or 'Present' or '2022')" +:+ ",";
    "          " +:+ q "description" +:+ ": " +:+ q "string (key responsibilities and achievements, ideally bullet points merged into a string)";
    "        }";
    "      ],";
    "      " +:+ q "education" +:+ ": [";
    "        {";
    "          " +:+ q "degreeCertification" +:+ ": " +:+ q "string (e.g., 'Master of Science in CS', 'AWS Certified Developer Associate')" +:+ ",";
    "          " +:+ q "institutionName" +:+ ": " +:+ q "string (e.g., 'Stanford University')" +:+ ",";
    "          " +:+ q "location" +:+ ": " +:+ q "string (e.g., 'Stanford, CA')" +:+ ",";
    "          " +:+ q "startYear" +:+ ": " +:+ q "string (e.g., '2016')" +:+ ",";
    "          " +:+ q "endYear" +:+ ": " +:+ q "string (e.g., '2018' or 'Present')" +:+ ",";
    "          " +:+ q "description" +:+ ": " +:+ q "string (relevant coursework, GPA, honors, thesis title, etc.)";
    "        }";
    "      ],";
    "      " +:+ q "skills" +:+ ": [";
    "        {";
    "          " +:+ q "name" +:+ ": " +:+ q "string (e.g., 'Python', 'Data Analysis')" +:+ ",";
    "          " +:+ q "level" +:+ ": " +:+ q "string (e.g., 'Expert', 'Advanced', 'Intermediate', 'Beginner'). If no level is specified in the resume, default to 'Beginner'.";
    "        }";
    "      ],";
    "      " +:+ q "languages" +:+ ": [";
    "        {";
    "          " +:+ q "name" +:+ ": " +:+ q "string (e.g., 'English')" +:+ ",";
    "          " +:+ q "level" +:+ ": " +:+ q "string (e.g., 'Native', 'Fluent', 'Conversational', 'Beginner'). If no level is specified, default to 'Beginner'.";
    "        }";
    "      ],";
    "      " +:+ q "certifications" +:+ ": [";
    "        " +:+ q "string (for standalone certifications not tied to an educational degree, e.g., 'PMP', 'CSM')";
    "      ]";
    "    }";
    "";
    "    Ensure the entire output is ONLY the JSON object, with no surrounding text, explanations, or markdown.";
    "    Pay close attention to extracting all details for work experience and education, including dates and locations.";
    "    For skills and languages, always include a 'level' field, defaulting to 'Beginner' if no explicit level is found.";
    "";
    "    Resume Text to Analyze:";
    "    ---";
    "    " ].

(** The lines of the template after the resume text. *)
Definition prompt_after : list string :=
  [ "";
    "    ---";
    "    " ].

(** The f-string: the template with [text_content] in its replacement
    field. (The doubled braces of the source are single braces of the
    text.) *)
Definition prompt (text_content : pystr) : pystr :=
  py (String.concat newline prompt_before)
  ++ text_content
  ++ py (String.concat newline prompt_after).

(** ** The model response and the pipeline *)

(** What reading the flat [.text] attribute of the response gives. On the
    response class of the model client [.text] is a property: it returns a
    string, or raises [ValueError] when the response has no candidate or
    the candidate has no part. [NoAttribute] is an object without the
    attribute (the read raises [AttributeError]). *)
Inductive attribute_read : Type :=
| NoAttribute
| Reads (t : pystr)
| RaisesValueError (msg : pystr).

(** The response object of the model client, as far as the pipeline reads
    it: the candidates, the content of a candidate (absent or falsy content
    is [None]), the parts of a content, the text of a part; and what
    reading the flat [text] attribute gives. *)
Record Part : Type := { part_text : pystr }.
Record Content : Type := { parts : list Part }.
Record Candidate : Type := { content : option Content }.
Record GenerateContentResponse : Type :=
  { candidates : list Candidate;
    text : attribute_read }.

(** The dict the pipeline returns. *)
Record UploadResult : Type :=
  { extractedData : pyval;
    completenessPercentage : Z;
    remainingFields : list string }.

Definition HTTP_500_INTERNAL_SERVER_ERROR : Z := 500.
Definition HTTP_422_UNPROCESSABLE_ENTITY : Z := 422.

(** The exception of the [else] branch. *)
Definition unexpected_structure : exn :=
  HTTPException HTTP_500_INTERNAL_SERVER_ERROR
    (py "Gemini API response did not contain expected content structure.") [].

(** The exception of the [except json.JSONDecodeError] clause. *)
Definition not_valid_json (generated_text : pystr) : exn :=
  HTTPException HTTP_422_UNPROCESSABLE_ENTITY
    (py ("AI response was not valid JSON. The AI may have failed to structure "
         +:+ "the data correctly. Check raw AI response for details."))
    [(py "X-Raw-AI-Response", strip generated_text)].

(** The exception of the last [except Exception as e] clause. *)
Definition failed_to_communicate (e : exn) : exn :=
  HTTPException HTTP_500_INTERNAL_SERVER_ERROR
    (py "Failed to communicate with AI model: " ++ exn_str e) [].

(** The [elif] and [else] branches. [hasattr(response, 'text')] reads the
    attribute and answers [False] only when the read raises
    [AttributeError]: the [else] branch is then taken. Any other exception
    of the read leaves [hasattr], and the [if] statement, as it is. When
    the read returns, the text is taken if it is not empty, and the [else]
    branch is taken if it is. *)
Definition text_fallback (response : GenerateContentResponse) : result pystr :=
  match text response with
  | NoAttribute => Raise unexpected_structure
  | Reads t => if bool_decide (t = []) then Raise unexpected_structure else Ok t
  | RaisesValueError msg => Raise (ValueError msg)
  end.

(** The [if]/[elif]/[else] that sets [generated_text]. *)
Definition locate_text (response : GenerateContentResponse) : result pystr :=
  match candidates response with
  | candidate :: _ =>
      match content candidate with
      | Some c =>
          match parts c with
          | part :: _ => Ok (part_text part)
          | [] => text_fallback response
          end
      | None => text_fallback response
      end
  | [] => text_fallback response
  end.

(** The inner [try]: decode the trimmed text and score it. [json_loads]
    answers [None] where [json.loads] raises [JSONDecodeError]. *)
Definition parse_and_score (json_loads : pystr → option pyval)
    (generated_text : pystr) : result UploadResult :=
  match json_loads (strip generated_text) with
  | Some parsed_json =>
      '(completeness_score, missing_fields) ←
         _calculate_resume_completeness parsed_json;
      Ok {| extractedData := parsed_json;
            completenessPercentage := completeness_score;
            remainingFields := missing_fields |}
  | None => Raise (not_valid_json generated_text)
  end.

(** The outer [except] clauses: an [HTTPException] is raised again, any
    other exception is reported as a failure to communicate. *)
Definition outer_except {A} (r : result A) : result A :=
  match r with
  | Ok a => Ok a
  | Raise (HTTPException c d h) => Raise (HTTPException c d h)
  | Raise e => Raise (failed_to_communicate e)
  end.

(** The pipeline, over the model client [generate_content] and the JSON
    decoder [json_loads]. *)
Definition extract_info_with_gemini
    (generate_content : pystr → result GenerateContentResponse)
    (json_loads : pystr → option pyval)
    (text_content : pystr) : result UploadResult :=
  outer_except
    (response ← generate_content (prompt text_content);
     generated_text ← locate_text response;
     parse_and_score json_loads generated_text).

(** * Part II: the vocabulary of the properties *)

(** ** Substrings *)

(** [s.startswith(needle)] *)
Fixpoint starts_with (s needle : pystr) {struct needle} : bool :=
  match needle, s with
  | [], _ => true
  | c :: needle', c' :: s' => (c =? c')%N && starts_with s' needle'
  | _ :: _, [] => false
  end.

(** [needle in s] *)
Fixpoint contains (s needle : pystr) : bool :=
  starts_with s needle
  || match s with
     | [] => false
     | _ :: s' => contains s' needle
     end.

(** [needle] occurs in [s]. *)
Definition occurs_in (needle s : pystr) : Prop := ∃ a b, s = a ++ needle ++ b.

(** ** What the loop computes *)

(** The verdict of the loop body on one rubric entry. *)
Definition is_populated (v : pyval) (fc : string * (pyval → result bool)) : bool :=
  match field_populated v fc with
  | Ok true => true
  | _ => false
  end.

(** The names the loop appends to [missing_fields], in rubric order. *)
Definition missing_of (v : pyval)
    (criteria : list (string * (pyval → result bool))) : list string :=
  (filter (λ fc, is_populated v fc = false) criteria).*1.

(** The number of times the loop increments [populated_fields]. *)
Definition populated_count (v : pyval)
    (criteria : list (string * (pyval → result bool))) : Z :=
  Z.of_nat (length (filter (λ fc, is_populated v fc = true) criteria)).

(** The field names of the rubric. *)
Definition schema_fields : list string := completeness_criteria.*1.

Definition scalar_fields : list string :=
  ["firstName"; "lastName"; "professionalTitle"; "email"; "phone";
   "location"; "linkedinURL"; "website"; "professionalSummary"].

Definition structured_fields : list string :=
  ["workExperience"; "education"; "skills"; "languages"].

Definition is_dict (v : pyval) : Prop :=
  match v with
  | PDict _ => True
  | _ => False
  end.

(** The shape the data model gives a record: the entries of the four
    structured collections are objects. Nothing is asked of the keys an
    entry has, of the other fields, or of fields that are not lists. *)
Definition entries_are_objects (d : gmap (list N) pyval) : Prop :=
  ∀ f l, f ∈ structured_fields → d !! py f = Some (PList l) → Forall is_dict l.

(** A decision procedure for [entries_are_objects]. *)
Definition entries_are_objects_dec (d : gmap (list N) pyval) : bool :=
  forallb (λ f, match d !! py f with
                | Some (PList l) =>
                    forallb (λ v, match v with PDict _ => true | _ => false end) l
                | _ => true
                end) structured_fields.

(** Every check of the rubric returns on [v]. *)
Definition every_check_returns (v : pyval) : Prop :=
  Forall (λ fc, ∃ b, field_populated v fc = Ok b) completeness_criteria.

(** ** Collections *)

(** The required sub-fields of the entries of each structured collection,
    as the specification lists them. *)
Definition required_subfields : list (string * list string) :=
  [ ("workExperience", ["jobTitle"; "company"]);
    ("education", ["degreeCertification"; "institutionName"]);
    ("skills", ["name"]);
    ("languages", ["name"]) ].

(** The entry is an object holding a truthy value under each of [keys]. *)
Definition entry_has (keys : list string) (item : pyval) : Prop :=
  ∃ e, item = PDict e ∧ Forall (λ k, truthy (dict_get e (py k)) = true) keys.

(** The value of field [f] is a non-empty list and every entry of it has
    the required sub-fields. *)
Definition collection_populated (keys : list string)
    (d : gmap (list N) pyval) (f : string) : Prop :=
  ∃ l, d !! py f = Some (PList l) ∧ l ≠ [] ∧ Forall (entry_has keys) l.

(** ** Failure kinds and access paths *)

(** The failure kinds of the specification. *)
Inductive failure_kind : Type :=
| ModelCallFailed
| ModelResponseMalformed
| AIResponseNotJSON.

(** The kind of an exception the pipeline raises: the unprocessable status
    is the decoding failure; of the server-side failures, the one of the
    [else] branch is the malformed response and the one of the last
    [except] clause is the failed model call. *)
Definition kind_of (e : exn) : option failure_kind :=
  match e with
  | HTTPException c d _ =>
      if (c =? HTTP_422_UNPROCESSABLE_ENTITY)%Z then Some AIResponseNotJSON
      else if (c =? HTTP_500_INTERNAL_SERVER_ERROR)%Z then
        if bool_decide
             (d = py "Gemini API response did not contain expected content structure.")
        then Some ModelResponseMalformed
        else if starts_with d (py "Failed to communicate with AI model: ")
        then Some ModelCallFailed
        else None
      else None
  | _ => None
  end.

(** The part the structured access path reaches: the first part of the
    content of the first candidate. *)
Definition first_part (response : GenerateContentResponse) : option Part :=
  candidate ← head (candidates response);
  c ← content candidate;
  head (parts c).

(** Neither access path yields a non-empty string. *)
Definition no_text_payload (response : GenerateContentResponse) : Prop :=
  (first_part response = None ∨ part_text <$> first_part response = Some [])
  ∧ (∀ t, text response = Reads t → t = []).

(** A response of the class of the model client: [.text] is the quick
    accessor to the parts of the first candidate, and reading it raises
    [ValueError] when there is no such part. *)
Definition client_response (response : GenerateContentResponse) : Prop :=
  first_part response = None → ∃ msg, text response = RaisesValueError msg.

(** ** The content of the prompt *)

(** The instructions the prompt gives the model: JSON only and no markdown,
    [null] and [[]] for what is absent, and the default level. *)
Definition prompt_instructions : list string :=
  [ "Return the information as a single, valid JSON object. Do NOT use markdown like ```json ... ```.";
    "Ensure the entire output is ONLY the JSON object, with no surrounding text, explanations, or markdown.";
    "If a key's information is not found, use `null` for string fields or an empty array `[]` for array fields.";
    "For arrays of objects, if no suitable entry is found, the array should be empty `[]`.";
    "If no level is specified in the resume, default to 'Beginner'.";
    "If no level is specified, default to 'Beginner'.";
    "For skills and languages, always include a 'level' field, defaulting to 'Beginner' if no explicit level is found." ].

(** How the template describes a field: a scalar by a quoted key and a
    string description, a collection by a quoted key and an array. *)
Definition scalar_description (f : string) : string :=
  q f +:+ ": " +:+ dquote +:+ "string (".

Definition array_description (f : string) : string := q f +:+ ": [".

(** ** Sample records, responses and a sample decoder *)

(** A [dict] literal with distinct keys. *)
Definition dict_of (kvs : list (string * pyval)) : gmap (list N) pyval :=
  list_to_map (prod_map py id <$> kvs).

(** Only [firstName] and [lastName] populated, all else null or empty. *)
Definition record_jane_doe : gmap (list N) pyval :=
  dict_of
    [ ("firstName", PStr (py "Jane")); ("lastName", PStr (py "Doe"));
      ("professionalTitle", PNone); ("email", PNone); ("phone", PNone);
      ("location", PNone); ("linkedinURL", PNone); ("website", PNone);
      ("professionalSummary", PNone);
      ("workExperience", PList []); ("education", PList []);
      ("skills", PList []); ("languages", PList []);
      ("certifications", PList []) ].

(** Every field populated. *)
Definition record_full : gmap (list N) pyval :=
  dict_of
    [ ("firstName", PStr (py "Jane")); ("lastName", PStr (py "Doe"));
      ("professionalTitle", PStr (py "Engineer"));
      ("email", PStr (py "jane@example.com")); ("phone", PStr (py "123"));
      ("location", PStr (py "Dhaka")); ("linkedinURL", PStr (py "https://l"));
      ("website", PStr (py "https://w"));
      ("professionalSummary", PStr (py "Summary"));
      ("workExperience",
        PList [PDict (dict_of [("jobTitle", PStr (py "Dev"));
                               ("company", PStr (py "ACME"))])]);
      ("education",
        PList [PDict (dict_of [("degreeCertification", PStr (py "BSc"));
                               ("institutionName", PStr (py "X"))])]);
      ("skills", PList [PDict (dict_of [("name", PStr (py "Python"))])]);
      ("languages", PList [PDict (dict_of [("name", PStr (py "English"));
                                           ("level", PStr (py "Native"))])]);
      ("certifications", PList [PStr (py "PMP")]) ].

(** A skill entry that is a bare string instead of an object. *)
Definition record_bare_skill : gmap (list N) pyval :=
  dict_of [ ("firstName", PStr (py "Jane"));
            ("skills", PList [PStr (py "Python")]) ].

(** Skills without a level, and an education list whose second entry has
    an empty credential. *)
Definition record_partial_education : gmap (list N) pyval :=
  dict_of
    [ ("skills", PList [PDict (dict_of [("name", PStr (py "Python"))])]);
      ("education",
        PList [ PDict (dict_of [("degreeCertification", PStr (py "BSc"));
                                ("institutionName", PStr (py "X"))]);
                PDict (dict_of [("degreeCertification", PStr (py ""));
                                ("institutionName", PStr (py "Y"))]) ]) ].

(** A response whose first part holds [t]. *)
Definition response_with_part (t : pystr) : GenerateContentResponse :=
  {| candidates := [ {| content := Some {| parts := [ {| part_text := t |} ] |} |} ];
     text := Reads t |}.

(** The response to a blocked prompt: no candidate, and a [.text] that
    raises. *)
Definition response_blocked : GenerateContentResponse :=
  {| candidates := [];
     text := RaisesValueError (py "response.candidates is empty") |}.

(** A decoder of the JSON literals: it decodes the five texts below as
    [json.loads] does and rejects every other text. *)
Definition literal_loads (s : pystr) : option pyval :=
  if bool_decide (s = py "null") then Some PNone
  else if bool_decide (s = py "true") then Some (PBool true)
  else if bool_decide (s = py "false") then Some (PBool false)
  else if bool_decide (s = py "{}") then Some (PDict ∅)
  else if bool_decide (s = py "[]") then Some (PList [])
  else None.

(** * Part III: the other modules *)

(** ** Configuration ([config.py]) *)

Definition UPLOAD_FOLDER : pystr := py "uploads".

(** The set [{'pdf', 'docx'}]. *)
Definition ALLOWED_EXTENSIONS : list pystr := [py "pdf"; py "docx"].

(** ** File names and text extraction ([utils.py]) *)

Definition dot : N := 46.
Definition slash : N := 47.

(** [s.rsplit(sep, 1)] for a one-character separator: the text before the
    last separator and the text after it, or [s] alone. *)
Fixpoint rsplit1 (sep : N) (s : pystr) : list pystr :=
  match s with
  | [] => [[]]
  | c :: r =>
      match rsplit1 sep r with
      | [tail] => if (c =? sep)%N then [[]; tail] else [c :: tail]
      | head :: rest => (c :: head) :: rest
      | [] => []
      end
  end.

(** [s.rfind(c)]: the index of the last [c], or -1. *)
Fixpoint rfind (c : N) (s : pystr) : Z :=
  match s with
  | [] => (-1)%Z
  | x :: r =>
      let i := rfind c r in
      if (0 <=? i)%Z then (i + 1)%Z else if (x =? c)%N then 0%Z else (-1)%Z
  end.

(** [s.endswith(suffix)] *)
Definition ends_with (s suffix : pystr) : bool :=
  starts_with (reverse s) (reverse suffix).

(** [sep.join(l)] *)
Fixpoint str_join (sep : pystr) (l : list pystr) : pystr :=
  match l with
  | [] => []
  | [x] => x
  | x :: rest => x ++ sep ++ str_join sep rest
  end.

(** [os.path.basename] of [posixpath]: [p[p.rfind('/') + 1:]]. *)
Definition basename (p : pystr) : pystr :=
  drop (Z.to_nat (rfind slash p + 1)) p.

(** [os.path.join(a, b)] of [posixpath]. *)
Definition join (a b : pystr) : pystr :=
  if starts_with b [slash] then b
  else if bool_decide (a = []) || ends_with a [slash] then a ++ b
  else a ++ [slash] ++ b.

(** [str.lower] on an ASCII character. *)
Definition ascii_lower (c : N) : N :=
  if ((65 <=? c) && (c <=? 90))%N then (c + 32)%N else c.

(** What a call into a library gives: its value, or the [str()] of the
    exception it raised (never FastAPI's [HTTPException]). *)
Inductive lib_result (A : Type) : Type :=
| Done (a : A)
| Failed (msg : pystr).
Arguments Done {A} a.
Arguments Failed {A} msg.

Section files.
(** The lowercase form CPython's Unicode database gives a character that
    is not ASCII, which may depend on the characters before and after it
    (the final sigma). *)
Context (unicode_lower : pystr → N → pystr → pystr).

(** [s.lower()], from the characters [before] on. *)
Fixpoint lower_from (before s : pystr) : pystr :=
  match s with
  | [] => []
  | c :: after =>
      (if (c <? 128)%N then [ascii_lower c] else unicode_lower before c after)
      ++ lower_from (before ++ [c]) after
  end.

(** [s.lower()] *)
Definition lower (s : pystr) : pystr := lower_from [] s.

(** [allowed_file]; [None] stands for the [IndexError] of the subscript. *)
Definition allowed_file (filename : pystr) : option bool :=
  if bool_decide (dot ∈ filename)
  then ext ← rsplit1 dot filename !! 1%nat;
       Some (bool_decide (lower ext ∈ ALLOWED_EXTENSIONS))
  else Some false.

(** [fitz_open] gives the texts of the pages of the document, or the
    failure of opening it or of reading a page. *)
Context (fitz_open : pystr → lib_result (list pystr)).

Definition extract_text_from_pdf (file_path : pystr) : result pystr :=
  match fitz_open file_path with
  | Done pages => Ok (foldl (λ text page_text, text ++ page_text) [] pages)
  | Failed e =>
      Raise (HTTPException HTTP_500_INTERNAL_SERVER_ERROR
               (py "Error extracting text from PDF: " ++ e) [])
  end.

(** [docx_Document] gives the texts of the paragraphs of the document. *)
Context (docx_Document : pystr → lib_result (list pystr)).

Definition extract_text_from_docx (file_path : pystr) : result pystr :=
  match docx_Document file_path with
  | Done paragraphs => Ok (str_join (py newline) paragraphs)
  | Failed e =>
      Raise (HTTPException HTTP_500_INTERNAL_SERVER_ERROR
               (py "Error extracting text from DOCX: " ++ e) [])
  end.

(** ** The upload route ([main.py]) *)

Definition HTTP_400_BAD_REQUEST : Z := 400.

(** [save_upload] writes the uploaded bytes at a path; the model client and
    the decoder are those of the pipeline. *)
Context (save_upload : pystr → lib_result ())
        (generate_content : pystr → result GenerateContentResponse)
        (json_loads : pystr → option pyval).

(** The path the upload is written to. *)
Definition upload_path (filename : pystr) : pystr :=
  join UPLOAD_FOLDER (basename filename).

(** The [if]/[elif] that picks the extractor; [resume_text] stays empty
    when neither suffix matches. *)
Definition extract_text (filename file_path : pystr) : result pystr :=
  if ends_with (lower filename) (py ".pdf") then extract_text_from_pdf file_path
  else if ends_with (lower filename) (py ".docx") then extract_text_from_docx file_path
  else Ok [].

(** The [except] clauses of a [try] of the route: an [HTTPException] is
    raised again, another exception is reported under [prefix]. *)
Definition route_except {A} (prefix : string) (r : result A) : result A :=
  match r with
  | Ok a => Ok a
  | Raise (HTTPException c d h) => Raise (HTTPException c d h)
  | Raise e =>
      Raise (HTTPException HTTP_500_INTERNAL_SERVER_ERROR
               (py prefix ++ exn_str e) [])
  end.

(** [upload_resume] on an upload named [filename] (a [str]); the outer
    [None] stands for an [IndexError] escaping from [allowed_file]. The
    [print] calls, the closing of the upload and the empty [finally] are
    left out. *)
Definition upload_resume (filename : pystr) : option (result UploadResult) :=
  allowed ← allowed_file filename;
  Some
    (if negb allowed
     then Raise (HTTPException HTTP_400_BAD_REQUEST
                   (py "Unsupported file type. Allowed types are PDF and DOCX.") [])
     else
       let file_path := upload_path filename in
       match save_upload file_path with
       | Failed e =>
           Raise (HTTPException HTTP_500_INTERNAL_SERVER_ERROR
                    (py "Error saving uploaded file: " ++ e) [])
       | Done _ =>
           resume_text ←
             route_except "Error processing file: "
               (resume_text ← extract_text (basename filename) file_path;
                if bool_decide (strip resume_text = [])
                then Raise (HTTPException HTTP_400_BAD_REQUEST
                              (py "Could not extract text from the document or document is empty.")
                              [])
                else Ok resume_text);
           route_except "Failed to process resume with AI: "
             (extract_info_with_gemini generate_content json_loads resume_text)
       end).
End files.

(** ** Vocabulary of the properties of the other modules *)

(** A string of whitespace only. *)
Definition blank (s : pystr) : Prop := Forall (λ c, isspace c = true) s.

(** What the properties ask of the lowercase table: the lowercase form of
    a character that is not ASCII holds a character other than the letters
    of [pdf] and [docx]. (In CPython's table the only ASCII letters such
    forms hold are [i] and [k].) *)
Definition lowercase_table_sound
    (unicode_lower : pystr → N → pystr → pystr) : Prop :=
  ∀ before c after, (128 ≤ c)%N →
    ∃ x, x ∈ unicode_lower before c after ∧ x ∉ py "cdfopx".

(** Two entries are objects that agree on the truth values of [keys]. *)
Definition same_required (keys : list string) (a b : pyval) : Prop :=
  ∃ ea eb, a = PDict ea ∧ b = PDict eb
    ∧ ∀ k, k ∈ keys → truthy (dict_get ea (py k)) = truthy (dict_get eb (py k)).

(** A lowercase table that leaves the characters that are not ASCII. *)
Definition unchanged_lower : pystr → N → pystr → pystr := λ _ c _, [c].

(** Sample surroundings of the upload route: a disk that takes the file
    and one that is full, a PDF of two pages, a PDF without text, and a
    model that answers the empty object. *)
Definition disk_ok : pystr → lib_result () := λ _, Done ().

Definition disk_full : pystr → lib_result () :=
  λ _, Failed (py "No space left on device").

Definition pdf_two_pages : pystr → lib_result (list pystr) :=
  λ _, Done [py "Jane Doe"; py " Engineer"].

Definition pdf_without_text : pystr → lib_result (list pystr) :=
  λ _, Done [py " "; py newline].

Definition model_empty_object : pystr → result GenerateContentResponse :=
  λ _, Ok (response_with_part (py "{}")).

(** * Part IV: lemmas and theorems *)

(** ** The error monad *)

Lemma bind_Ok {A B} (f : A → result B) (m : result A) (b : B) :
  m ≫= f = Ok b ↔ ∃ a, m = Ok a ∧ f a = Ok b.
Proof.
  destruct m as [a|e]; simpl; split.
  - eauto.
  - by intros (a' & [= <-] & ?).
  - done.
  - by intros (? & ? & ?).
Qed.

Lemma bind_Ok_l {A B} (f : A → result B) (m : result A) (a : A) :
  m = Ok a → m ≫= f = f a.
Proof. by intros ->. Qed.

(** ** Strings *)

#[global] Instance N_of_ascii_inj : Inj (=) (=) Ascii.N_of_ascii.
Proof.
  intros a b Hab.
  rewrite <- (Ascii.ascii_N_embedding a), <- (Ascii.ascii_N_embedding b).
  by f_equal.
Qed.

#[global] Instance py_inj : Inj (=) (=) py.
Proof.
  intros s1 s2 H. unfold py in H. apply (inj _) in H.
  rewrite <- (String.string_of_list_ascii_of_string s1),
          <- (String.string_of_list_ascii_of_string s2).
  by f_equal.
Qed.

(** ** The percentage *)

Lemma percentage_of_spec (p : Z) :
  (0 ≤ p ≤ 14)%Z → percentage_of p 14 = Ok (100 * p / 14)%Z.
Proof.
  intros Hp.
  assert (Hcases : ∃ n : nat, (n ≤ 14)%nat ∧ p = Z.of_nat n).
  { exists (Z.to_nat p). lia. }
  destruct Hcases as (n & Hn & ->).
  do 15 (destruct n as [|n]; [vm_compute; reflexivity|]).
  lia.
Qed.

Lemma percentage_bounds (p : Z) :
  (0 ≤ p ≤ 14)%Z → (0 ≤ 100 * p / 14 ≤ 100)%Z.
Proof.
  intros Hp. split.
  - apply Z.div_pos; lia.
  - apply Z.div_le_upper_bound; lia.
Qed.

(** ** The loop *)

Section loop.
Context (v : pyval).
Implicit Types criteria : list (string * (pyval → result bool)).

Lemma is_populated_Ok fc b : field_populated v fc = Ok b → is_populated v fc = b.
Proof. unfold is_populated. intros ->. by destruct b. Qed.

Lemma populated_count_cons fc criteria :
  populated_count v (fc :: criteria) =
  ((if is_populated v fc then 1 else 0) + populated_count v criteria)%Z.
Proof.
  unfold populated_count. rewrite filter_cons.
  destruct (is_populated v fc); simpl; repeat case_decide; try done;
    rewrite ?length_cons; lia.
Qed.

Lemma missing_of_cons fc criteria :
  missing_of v (fc :: criteria) =
  (if is_populated v fc then [] else [fc.1]) ++ missing_of v criteria.
Proof.
  unfold missing_of. rewrite filter_cons.
  destruct (is_populated v fc); simpl; repeat case_decide; done.
Qed.

(** The loop finishes only if the check of every field returned. *)
Lemma score_loop_Ok_each criteria p m r :
  score_loop v criteria p m = Ok r →
  Forall (λ fc, ∃ b, field_populated v fc = Ok b) criteria.
Proof.
  revert p m. induction criteria as [|fc rest IH]; intros p m H; [constructor|].
  simpl in H. apply bind_Ok in H as (b & Hb & H).
  constructor; [eauto|]. destruct b; eauto.
Qed.

(** When every check returns, the loop returns the count of the populated
    fields and the names of the others, in rubric order. *)
Lemma score_loop_spec criteria p m :
  Forall (λ fc, ∃ b, field_populated v fc = Ok b) criteria →
  score_loop v criteria p m =
    Ok ((p + populated_count v criteria)%Z, m ++ missing_of v criteria).
Proof.
  intros H. revert p m. induction H as [|fc rest [b Hb] _ IH]; intros p m.
  - simpl. by rewrite Z.add_0_r, app_nil_r.
  - simpl. rewrite populated_count_cons, missing_of_cons.
    rewrite (is_populated_Ok _ _ Hb), Hb. simpl.
    destruct b; rewrite IH; simpl.
    + by rewrite Z.add_assoc.
    + by rewrite Z.add_0_l, <- app_assoc.
Qed.

Lemma populated_count_bounds criteria :
  (0 ≤ populated_count v criteria ≤ Z.of_nat (length criteria))%Z.
Proof.
  unfold populated_count. split; [lia|].
  apply inj_le, length_filter.
Qed.

(** Every field is counted or listed, never both. *)
Lemma populated_plus_missing criteria :
  (populated_count v criteria + Z.of_nat (length (missing_of v criteria))
   = Z.of_nat (length criteria))%Z.
Proof.
  induction criteria as [|fc rest IH]; [done|].
  rewrite populated_count_cons, missing_of_cons, length_app. simpl length.
  destruct (is_populated v fc); simpl length; lia.
Qed.

Lemma missing_of_sublist criteria : missing_of v criteria `sublist_of` criteria.*1.
Proof. unfold missing_of. apply fmap_sublist, sublist_filter. Qed.

Lemma elem_of_missing_of criteria f :
  f ∈ missing_of v criteria ↔ ∃ chk, (f, chk) ∈ criteria ∧ is_populated v (f, chk) = false.
Proof.
  unfold missing_of. rewrite list_elem_of_fmap. split.
  - intros ([g chk] & -> & [H1 H2]%list_elem_of_filter). eauto.
  - intros (chk & H1 & H2). exists (f, chk). split; [done|].
    by apply list_elem_of_filter.
Qed.
End loop.

(** ** The checks *)

Lemma requires1_dict a e :
  requires1 a (PDict e) = Ok (truthy (dict_get e (py a))).
Proof. done. Qed.

Lemma requires2_dict a b e :
  requires2 a b (PDict e)
  = Ok (truthy (dict_get e (py a)) && truthy (dict_get e (py b))).
Proof. unfold requires2. simpl. by destruct (truthy (dict_get e (py a))). Qed.

Lemma check_scalar_returns x : ∃ b, check_scalar x = Ok b.
Proof. destruct x; simpl; eauto. Qed.

Lemma check_nonempty_returns x : ∃ b, check_nonempty x = Ok b.
Proof. destruct x; simpl; eauto. Qed.

Lemma py_all_returns entry l :
  Forall (λ item, ∃ b, entry item = Ok b) l → ∃ b, py_all entry l = Ok b.
Proof.
  induction 1 as [|item rest [b Hb] _ IH]; simpl; [eauto|].
  rewrite Hb. simpl. destruct b; eauto.
Qed.

(** [all] answers [True] exactly when every entry passes. *)
Lemma py_all_true entry l :
  py_all entry l = Ok true ↔ Forall (λ item, entry item = Ok true) l.
Proof.
  induction l as [|item rest IH]; simpl.
  - split; [constructor|done].
  - rewrite Forall_cons, <- IH, bind_Ok. split.
    + intros (b & Hb & H). by destruct b.
    + intros [H1 H2]. eauto.
Qed.

Lemma check_entries_true entry x :
  check_entries entry x = Ok true ↔
  ∃ l, x = PList l ∧ l ≠ [] ∧ Forall (λ item, entry item = Ok true) l.
Proof.
  split.
  - destruct x as [| | | | |l|]; simpl; try done.
    destruct l as [|item rest]; [done|]. intros H%py_all_true. eauto.
  - intros (l & -> & Hne & H). simpl.
    destruct l as [|item rest]; [done|]. by apply py_all_true.
Qed.

Lemma check_nonempty_true x :
  check_nonempty x = Ok true ↔ ∃ l, x = PList l ∧ l ≠ [].
Proof.
  split.
  - destruct x as [| | | | |l|]; simpl; try done. destruct l; [done|eauto].
  - intros (l & -> & Hne). by destruct l.
Qed.

Lemma check_scalar_true x :
  check_scalar x = Ok true ↔ ∃ s, x = PStr s ∧ strip s ≠ [].
Proof.
  split.
  - destruct x as [| | | |s| |]; simpl; try done.
    intros [= H]. exists s. split; [done|].
    apply negb_true_iff, bool_decide_eq_false in H. done.
  - intros (s & -> & Hs). simpl. f_equal.
    by apply negb_true_iff, bool_decide_eq_false.
Qed.

(** The loop body on a [dict]: the lookup cannot raise, and an absent key
    and a [null] are both read as [None]. *)
Lemma field_populated_dict d fc :
  field_populated (PDict d) fc =
  match dict_get d (py fc.1) with
  | PNone => Ok false
  | value => fc.2 value
  end.
Proof. unfold field_populated. simpl. by destruct (dict_get d (py fc.1)). Qed.

Lemma field_populated_true d f chk :
  field_populated (PDict d) (f, chk) = Ok true ↔
  ∃ value, d !! py f = Some value ∧ value ≠ PNone ∧ chk value = Ok true.
Proof.
  rewrite field_populated_dict. unfold dict_get. simpl. split.
  - destruct (d !! py f) as [value|]; simpl; [|done].
    destruct value; try done; eauto 6.
  - intros (value & -> & Hne & H). simpl. by destruct value.
Qed.

(** The verdict of the loop on a scalar field. *)
Lemma scalar_field_verdict d f :
  field_populated (PDict d) (f, check_scalar) = Ok true
  ↔ ∃ s, d !! py f = Some (PStr s) ∧ strip s ≠ [].
Proof.
  rewrite field_populated_true. split.
  - intros (value & Hget & _ & (s & -> & Hs)%check_scalar_true). eauto.
  - intros (s & Hget & Hs). exists (PStr s). split_and!; try done.
    apply check_scalar_true. eauto.
Qed.

(** ** The scorer *)

Lemma total_fields_14 : length completeness_criteria = 14%nat.
Proof. reflexivity. Qed.

Lemma schema_fields_NoDup : NoDup schema_fields.
Proof. apply (bool_decide_unpack _). by vm_compute. Qed.

Lemma score_returns v :
  every_check_returns v →
  _calculate_resume_completeness v =
    Ok ((100 * populated_count v completeness_criteria / 14)%Z,
        missing_of v completeness_criteria).
Proof.
  intros H. unfold _calculate_resume_completeness.
  erewrite bind_Ok_l by (by apply score_loop_spec).
  change (Z.of_nat (length completeness_criteria)) with 14%Z.
  change (14 =? 0)%Z with false. cbv iota.
  pose proof (populated_count_bounds v completeness_criteria) as Hb.
  rewrite total_fields_14 in Hb.
  rewrite Z.add_0_l, percentage_of_spec by done. simpl.
  rewrite Z.min_l; [done|]. by apply percentage_bounds.
Qed.

Lemma score_Ok v pct missing :
  _calculate_resume_completeness v = Ok (pct, missing) →
  every_check_returns v
  ∧ pct = (100 * populated_count v completeness_criteria / 14)%Z
  ∧ missing = missing_of v completeness_criteria.
Proof.
  intros H.
  assert (every_check_returns v) as Hv.
  { unfold _calculate_resume_completeness in H.
    apply bind_Ok in H as ([p m] & Hloop & _).
    by apply score_loop_Ok_each in Hloop. }
  rewrite (score_returns _ Hv) in H. by injection H as <- <-.
Qed.

(** On a record whose collection entries are objects no check raises. *)
Lemma record_checks_return d :
  entries_are_objects d → every_check_returns (PDict d).
Proof.
  intros Hd.
  assert (∀ f entry, f ∈ structured_fields →
            (∀ e, ∃ b, entry (PDict e) = Ok b) →
            ∃ b, field_populated (PDict d) (f, check_entries entry) = Ok b)
    as Hstruct.
  { intros f entry Hf He. rewrite field_populated_dict. simpl.
    destruct (dict_get d (py f)) as [| | | | |l|] eqn:Hget; simpl; eauto.
    destruct (0 <? length l)%nat; [|eauto].
    apply py_all_returns. eapply Forall_impl.
    - apply (Hd f l Hf). unfold dict_get in Hget.
      destruct (d !! py f) as [x|]; simpl in Hget; by subst.
    - by intros [] ?. }
  assert (∀ f, ∃ b, field_populated (PDict d) (f, check_scalar) = Ok b)
    as Hscalar.
  { intros f. rewrite field_populated_dict. simpl.
    destruct (dict_get d (py f)); simpl; eauto. }
  unfold every_check_returns, completeness_criteria.
  repeat (apply Forall_cons; split); try apply Hscalar; try apply Forall_nil_2.
  all: try (apply Hstruct;
            [set_solver
            |intros e; rewrite ?requires2_dict, ?requires1_dict; eauto]).
  - rewrite field_populated_dict. cbn [fst snd].
    destruct (dict_get d (py "certifications"));
      eauto using check_nonempty_returns.
Qed.

Lemma NoDup_fst_unique {A B} (l : list (A * B)) x y1 y2 :
  NoDup l.*1 → (x, y1) ∈ l → (x, y2) ∈ l → y1 = y2.
Proof.
  induction l as [|[a b] l IH]; csimpl; intros Hnd H1 H2.
  - by apply elem_of_nil in H1.
  - apply NoDup_cons in Hnd as [Hnotin Hnd].
    apply elem_of_cons in H1 as [?|H1];
      apply elem_of_cons in H2 as [?|H2]; simplify_eq; try done.
    + destruct Hnotin. apply list_elem_of_fmap. by exists (a, y2).
    + destruct Hnotin. apply list_elem_of_fmap. by exists (a, y1).
    + eauto.
Qed.

(** A schema field is listed as missing exactly when its check did not
    answer [True]. *)
Lemma missing_iff v f chk :
  (f, chk) ∈ completeness_criteria →
  f ∈ missing_of v completeness_criteria ↔ is_populated v (f, chk) = false.
Proof.
  intros Hin. rewrite elem_of_missing_of. split; [|eauto].
  intros (chk' & Hin' & H).
  by rewrite (NoDup_fst_unique _ _ _ _ schema_fields_NoDup Hin Hin').
Qed.

Lemma not_missing_iff v f chk :
  (f, chk) ∈ completeness_criteria →
  f ∉ missing_of v completeness_criteria ↔ field_populated v (f, chk) = Ok true.
Proof.
  intros Hin. rewrite (missing_iff _ _ _ Hin). unfold is_populated.
  destruct (field_populated v (f, chk)) as [[]|]; naive_solver.
Qed.

(** The loop reads the record only through the checks of the rubric. *)
Lemma score_loop_ext v1 v2 criteria p m :
  Forall (λ fc, field_populated v1 fc = field_populated v2 fc) criteria →
  score_loop v1 criteria p m = score_loop v2 criteria p m.
Proof.
  intros H. revert p m. induction H as [|fc rest Hfc _ IH]; intros p m; [done|].
  simpl. rewrite Hfc. destruct (field_populated v2 fc) as [[]|]; simpl; auto.
Qed.

(** ** Well-formed records and extreme records *)

Lemma entries_are_objects_by_lookup d :
  entries_are_objects_dec d = true → entries_are_objects d.
Proof.
  intros H f l Hf Hl. unfold entries_are_objects_dec in H.
  rewrite forallb_forall in H. apply list_elem_of_In, H in Hf.
  rewrite Hl in Hf. apply Forall_forall. intros v Hv.
  rewrite forallb_forall in Hf. apply list_elem_of_In, Hf in Hv.
  by destruct v.
Qed.

Lemma all_populated v criteria :
  Forall (λ fc, is_populated v fc = true) criteria →
  populated_count v criteria = Z.of_nat (length criteria)
  ∧ missing_of v criteria = [].
Proof.
  induction 1 as [|fc rest Hfc _ [IH1 IH2]]; [done|].
  rewrite populated_count_cons, missing_of_cons, Hfc, IH1, IH2.
  split; [simpl length; lia|done].
Qed.

Lemma none_populated v criteria :
  Forall (λ fc, is_populated v fc = false) criteria →
  populated_count v criteria = 0%Z ∧ missing_of v criteria = criteria.*1.
Proof.
  induction 1 as [|fc rest Hfc _ [IH1 IH2]]; [done|].
  rewrite populated_count_cons, missing_of_cons, Hfc, IH1, IH2. done.
Qed.

(** Membership in a list given in full. *)
Ltac in_list :=
  repeat first [apply list_elem_of_here | apply list_elem_of_further].

Lemma scalar_in_criteria f :
  f ∈ scalar_fields → (f, check_scalar) ∈ completeness_criteria.
Proof.
  unfold scalar_fields, completeness_criteria. intros H.
  repeat (apply elem_of_cons in H as [->|H]; [in_list|]).
  by apply elem_of_nil in H.
Qed.

(** ** Properties of the scorer *)

(** C1: the scorer counts how many of the 14 rubric fields (9 scalars, 4
    structured collections, the flat certifications list) pass their check
    and returns [floor(populated / 14 * 100)] capped at 100, with the names
    of the other fields in rubric order; it returns on every record whose
    collection entries are objects. The record with only [firstName] and
    [lastName] populated scores 14, the other 12 names being missing in
    schema order. *)
Theorem C1_percentage_counts_populated_fields (d : gmap (list N) pyval) :
  completeness_criteria =
    ((λ f, (f, check_scalar)) <$> scalar_fields)
    ++ [ ("workExperience", check_entries (requires2 "jobTitle" "company"));
         ("education",
           check_entries (requires2 "degreeCertification" "institutionName"));
         ("skills", check_entries (requires1 "name"));
         ("languages", check_entries (requires1 "name")) ]
    ++ [ ("certifications", check_nonempty) ]
  ∧ length scalar_fields = 9%nat
  ∧ length completeness_criteria = 14%nat
  ∧ (entries_are_objects d →
     ∃ r, _calculate_resume_completeness (PDict d) = Ok r)
  ∧ (∀ pct missing,
       _calculate_resume_completeness (PDict d) = Ok (pct, missing) →
       pct = Z.min (100 * populated_count (PDict d) completeness_criteria / 14) 100
       ∧ missing = missing_of (PDict d) completeness_criteria)
  ∧ (∀ f, f ∈ scalar_fields →
       is_populated (PDict d) (f, check_scalar) = true
       ↔ ∃ s, d !! py f = Some (PStr s) ∧ strip s ≠ [])
  ∧ _calculate_resume_completeness (PDict record_jane_doe) =
      Ok (14%Z,
          [ "professionalTitle"; "email"; "phone"; "location"; "linkedinURL";
            "website"; "professionalSummary"; "workExperience"; "education";
            "skills"; "languages"; "certifications" ]).
Proof.
  split_and!; try reflexivity.
  - intros Hd. eexists. by apply score_returns, record_checks_return.
  - intros pct missing (Hv & -> & ->)%score_Ok. split; [|done].
    rewrite Z.min_l; [done|]. apply percentage_bounds.
    apply (populated_count_bounds _ completeness_criteria).
  - intros f _. rewrite <- scalar_field_verdict. unfold is_populated.
    destruct (field_populated (PDict d) (f, check_scalar)) as [[]|];
      naive_solver.
Qed.

Lemma C1_witness :
  entries_are_objects record_full
  ∧ ∃ r, _calculate_resume_completeness (PDict record_full) = Ok r.
Proof.
  split.
  - apply entries_are_objects_by_lookup. vm_compute. reflexivity.
  - apply (C1_percentage_counts_populated_fields record_full).
    apply entries_are_objects_by_lookup. vm_compute. reflexivity.
Defined.

(** C3: the percentage is an integer between 0 and 100; a record none of
    whose fields passes (the empty record among them) scores 0 with all 14
    names missing, and a record all of whose fields pass scores 100 with
    nothing missing. *)
Theorem C3_percentage_within_bounds (d : gmap (list N) pyval) :
  (entries_are_objects d →
   ∃ r, _calculate_resume_completeness (PDict d) = Ok r)
  ∧ (∀ pct missing,
       _calculate_resume_completeness (PDict d) = Ok (pct, missing) →
       (0 ≤ pct ≤ 100)%Z)
  ∧ _calculate_resume_completeness (PDict ∅) =
      Ok (0%Z,
          [ "firstName"; "lastName"; "professionalTitle"; "email"; "phone";
            "location"; "linkedinURL"; "website"; "professionalSummary";
            "workExperience"; "education"; "skills"; "languages";
            "certifications" ])
  ∧ ((∀ fc, fc ∈ completeness_criteria →
            field_populated (PDict d) fc = Ok false) →
     _calculate_resume_completeness (PDict d) = Ok (0%Z, schema_fields))
  ∧ ((∀ fc, fc ∈ completeness_criteria →
            field_populated (PDict d) fc = Ok true) →
     _calculate_resume_completeness (PDict d) = Ok (100%Z, [])).
Proof.
  split_and!.
  - intros Hd. eexists. by apply score_returns, record_checks_return.
  - intros pct missing (Hv & -> & ->)%score_Ok.
    apply percentage_bounds, (populated_count_bounds _ completeness_criteria).
  - by vm_compute.
  - intros H. rewrite score_returns.
    + destruct (none_populated (PDict d) completeness_criteria) as [-> ->]; [|done].
      apply Forall_forall. intros fc Hfc. by apply is_populated_Ok, H.
    + apply Forall_forall. intros fc Hfc. eauto.
  - intros H. rewrite score_returns.
    + destruct (all_populated (PDict d) completeness_criteria) as [-> ->]; [|done].
      apply Forall_forall. intros fc Hfc. by apply is_populated_Ok, H.
    + apply Forall_forall. intros fc Hfc. eauto.
Qed.

Lemma C3_witness :
  (∀ fc, fc ∈ completeness_criteria →
         field_populated (PDict record_full) fc = Ok true)
  ∧ _calculate_resume_completeness (PDict record_full) = Ok (100%Z, []).
Proof.
  assert (∀ fc, fc ∈ completeness_criteria →
            field_populated (PDict record_full) fc = Ok true) as Hfull.
  { intros fc Hfc. unfold completeness_criteria in Hfc.
    repeat (apply elem_of_cons in Hfc as [->|Hfc]; [by vm_compute|]).
    by apply elem_of_nil in Hfc. }
  split; [exact Hfull|].
  destruct (C3_percentage_within_bounds record_full) as (_ & _ & _ & _ & Hall).
  exact (Hall Hfull).
Defined.

(** *** Collections: all or nothing *)

Lemma requires1_true a item :
  requires1 a item = Ok true ↔ entry_has [a] item.
Proof.
  split.
  - destruct item as [| | | | | |e]; try done.
    rewrite requires1_dict. intros [= H]. exists e. by repeat constructor.
  - intros (e & -> & H). rewrite requires1_dict.
    apply Forall_cons in H as [-> _]. done.
Qed.

Lemma requires2_true a b item :
  requires2 a b item = Ok true ↔ entry_has [a; b] item.
Proof.
  split.
  - destruct item as [| | | | | |e]; try done.
    rewrite requires2_dict. intros [= [H1 H2]%andb_true_iff].
    exists e. by repeat constructor.
  - intros (e & -> & H). rewrite requires2_dict.
    apply Forall_cons in H as [-> H]. apply Forall_cons in H as [-> _]. done.
Qed.

Lemma collection_field_iff d f entry keys :
  (∀ item, entry item = Ok true ↔ entry_has keys item) →
  field_populated (PDict d) (f, check_entries entry) = Ok true
  ↔ collection_populated keys d f.
Proof.
  intros Hentry. rewrite field_populated_true. unfold collection_populated.
  split.
  - intros (value & Hget & _ & (l & -> & Hne & Hall)%check_entries_true).
    exists l. split_and!; try done.
    eapply Forall_impl; [done|]. intros item. by rewrite Hentry.
  - intros (l & Hget & Hne & Hall). exists (PList l). split_and!; try done.
    apply check_entries_true. exists l. split_and!; try done.
    eapply Forall_impl; [done|]. intros item. by rewrite Hentry.
Qed.

(** The verdict of the loop on a structured collection. *)
Lemma structured_field_verdict d f keys :
  (f, keys) ∈ required_subfields →
  f ∉ missing_of (PDict d) completeness_criteria
  ↔ collection_populated keys d f.
Proof.
  intros Hf. unfold required_subfields in Hf.
  repeat (apply elem_of_cons in Hf as [[= -> ->]|Hf]);
    [..|by apply elem_of_nil in Hf].
  - rewrite (not_missing_iff _ _ (check_entries (requires2 "jobTitle" "company")))
      by in_list.
    apply collection_field_iff, requires2_true.
  - rewrite (not_missing_iff _ _
               (check_entries (requires2 "degreeCertification" "institutionName")))
      by in_list.
    apply collection_field_iff, requires2_true.
  - rewrite (not_missing_iff _ _ (check_entries (requires1 "name"))) by in_list.
    apply collection_field_iff, requires1_true.
  - rewrite (not_missing_iff _ _ (check_entries (requires1 "name"))) by in_list.
    apply collection_field_iff, requires1_true.
Qed.

(** One entry without the required sub-fields disqualifies the field. *)
Lemma structured_field_one_bad_entry d f keys l item :
  (f, keys) ∈ required_subfields →
  d !! py f = Some (PList l) → item ∈ l → ¬ entry_has keys item →
  f ∈ missing_of (PDict d) completeness_criteria.
Proof.
  intros Hf Hget Hitem Hbad.
  destruct (decide (f ∈ missing_of (PDict d) completeness_criteria))
    as [|Hnot]; [done|].
  apply (structured_field_verdict _ _ _ Hf) in Hnot as (l' & Hget' & _ & Hall).
  rewrite Hget in Hget'. injection Hget' as <-.
  rewrite Forall_forall in Hall. by destruct Hbad; apply Hall.
Qed.

(** C2: a structured collection is judged populated exactly when its value
    is a non-empty list every entry of which holds truthy values under the
    required sub-fields ([level] is not among them); one failing entry
    makes the field missing whatever the other entries are; and
    [certifications] is populated exactly when it is a non-empty list. *)
Theorem C2_collections_all_or_nothing (d : gmap (list N) pyval) :
  (entries_are_objects d →
   ∃ r, _calculate_resume_completeness (PDict d) = Ok r)
  ∧ (∀ pct missing,
       _calculate_resume_completeness (PDict d) = Ok (pct, missing) →
       (∀ f keys, (f, keys) ∈ required_subfields →
          (f ∉ missing ↔ collection_populated keys d f)
          ∧ (∀ l item, d !! py f = Some (PList l) → item ∈ l →
                       ¬ entry_has keys item → f ∈ missing))
       ∧ ("certifications" ∉ missing ↔
          ∃ l, d !! py "certifications" = Some (PList l) ∧ l ≠ [])).
Proof.
  split.
  { intros Hd. eexists. by apply score_returns, record_checks_return. }
  intros pct missing (Hv & -> & ->)%score_Ok. split.
  - intros f keys Hf. split; [by apply structured_field_verdict|].
    intros l item. by apply structured_field_one_bad_entry.
  - rewrite (not_missing_iff _ _ check_nonempty) by in_list.
    rewrite field_populated_true. split.
    + intros (value & Hget & _ & (l & -> & Hne)%check_nonempty_true). eauto.
    + intros (l & Hget & Hne). exists (PList l). split_and!; try done.
      apply check_nonempty_true. eauto.
Qed.

Lemma C2_witness :
  _calculate_resume_completeness (PDict record_partial_education) =
    Ok (7%Z,
        [ "firstName"; "lastName"; "professionalTitle"; "email"; "phone";
          "location"; "linkedinURL"; "website"; "professionalSummary";
          "workExperience"; "education"; "languages"; "certifications" ])
  ∧ ¬ collection_populated ["degreeCertification"; "institutionName"]
        record_partial_education "education".
Proof.
  assert (_calculate_resume_completeness (PDict record_partial_education) =
    Ok (7%Z,
        [ "firstName"; "lastName"; "professionalTitle"; "email"; "phone";
          "location"; "linkedinURL"; "website"; "professionalSummary";
          "workExperience"; "education"; "languages"; "certifications" ]))
    as Hscore by (vm_compute; reflexivity).
  split; [exact Hscore|].
  destruct (proj2 (C2_collections_all_or_nothing record_partial_education)
              _ _ Hscore) as [Hfields _].
  destruct (Hfields "education" ["degreeCertification"; "institutionName"])
    as [Hiff _]; [in_list|].
  intros Hpop. apply Hiff in Hpop. apply Hpop. in_list.
Defined.

(** Scenario B: a skill entry with a name and no level is populated. *)
Example skills_without_level_populated :
  ∃ pct missing,
    _calculate_resume_completeness (PDict record_partial_education)
      = Ok (pct, missing)
    ∧ ("skills" ∉ missing) ∧ ("education" ∈ missing).
Proof.
  eexists _, _. split; [vm_compute; reflexivity|].
  split; [|in_list].
  intros H. repeat (apply elem_of_cons in H as [[=]|H]).
  by apply elem_of_nil in H.
Qed.

(** P3: one entry without a title among complete ones disqualifies
    [workExperience], wherever it stands. *)
Example work_experience_one_untitled (d : gmap (list N) pyval)
    (before after : list pyval) (e : gmap (list N) pyval) pct missing :
  d !! py "workExperience" = Some (PList (before ++ PDict e :: after)) →
  e !! py "jobTitle" = None →
  _calculate_resume_completeness (PDict d) = Ok (pct, missing) →
  "workExperience" ∈ missing.
Proof.
  intros Hget Htitle (_ & _ & ->)%score_Ok.
  apply (structured_field_one_bad_entry d _ ["jobTitle"; "company"]
           (before ++ PDict e :: after) (PDict e)); [in_list|done| |].
  - apply elem_of_app. right. apply list_elem_of_here.
  - intros (e' & [= <-] & [H _]%Forall_cons).
    unfold dict_get in H. by rewrite Htitle in H.
Qed.

(** *** The partition of the schema *)

(** C9: the populated count and the missing list partition the 14 schema
    fields: each field is counted or listed, never both; the missing list
    has no duplicates and is a subsequence of the schema names; and the
    percentage is [floor((14 - |missing|) / 14 * 100)]. *)
Theorem C9_outputs_partition_schema (d : gmap (list N) pyval) :
  (entries_are_objects d →
   ∃ r, _calculate_resume_completeness (PDict d) = Ok r)
  ∧ (∀ pct missing,
       _calculate_resume_completeness (PDict d) = Ok (pct, missing) →
       ∃ populated,
         score_loop (PDict d) completeness_criteria 0 [] = Ok (populated, missing)
         ∧ populated = populated_count (PDict d) completeness_criteria
         ∧ (∀ fc, fc ∈ completeness_criteria →
              (is_populated (PDict d) fc = true ∧ fc.1 ∉ missing)
              ∨ (is_populated (PDict d) fc = false ∧ fc.1 ∈ missing))
         ∧ (populated + Z.of_nat (length missing) = 14)%Z
         ∧ NoDup missing
         ∧ missing `sublist_of` schema_fields
         ∧ pct = (100 * (14 - Z.of_nat (length missing)) / 14)%Z).
Proof.
  split.
  { intros Hd. eexists. by apply score_returns, record_checks_return. }
  intros pct missing (Hv & -> & ->)%score_Ok.
  exists (populated_count (PDict d) completeness_criteria).
  pose proof (populated_plus_missing (PDict d) completeness_criteria) as Hsum.
  rewrite total_fields_14 in Hsum.
  split_and!.
  - by rewrite score_loop_spec.
  - done.
  - intros [f chk] Hfc. simpl.
    pose proof (missing_iff (PDict d) f chk Hfc) as Hm.
    destruct (is_populated (PDict d) (f, chk)); [left|right]; split; try done.
    + rewrite Hm. done.
    + by apply Hm.
  - done.
  - eapply sublist_NoDup; [apply schema_fields_NoDup|apply missing_of_sublist].
  - apply missing_of_sublist.
  - f_equal. lia.
Qed.

Lemma C9_witness :
  _calculate_resume_completeness (PDict record_jane_doe) =
    Ok (14%Z,
        [ "professionalTitle"; "email"; "phone"; "location"; "linkedinURL";
          "website"; "professionalSummary"; "workExperience"; "education";
          "skills"; "languages"; "certifications" ])
  ∧ ∃ populated,
      score_loop (PDict record_jane_doe) completeness_criteria 0 [] =
        Ok (populated,
            [ "professionalTitle"; "email"; "phone"; "location"; "linkedinURL";
              "website"; "professionalSummary"; "workExperience"; "education";
              "skills"; "languages"; "certifications" ])
      ∧ (populated + 12 = 14)%Z.
Proof.
  assert (_calculate_resume_completeness (PDict record_jane_doe) =
    Ok (14%Z,
        [ "professionalTitle"; "email"; "phone"; "location"; "linkedinURL";
          "website"; "professionalSummary"; "workExperience"; "education";
          "skills"; "languages"; "certifications" ])) as Hscore
    by (vm_compute; reflexivity).
  split; [exact Hscore|].
  destruct (proj2 (C9_outputs_partition_schema record_jane_doe) _ _ Hscore)
    as (populated & Hloop & _ & _ & Hsum & _).
  exists populated. split; [exact Hloop|exact Hsum].
Defined.

(** *** Only the schema keys are read *)

(** C10: two records that agree on the 14 schema keys get the same outcome
    from the scorer, whatever other keys they hold; the scorer being a
    function of the record, two calls on one record agree as well. *)
Theorem C10_only_schema_keys_matter (d1 d2 : gmap (list N) pyval) :
  (∀ f, f ∈ schema_fields → d1 !! py f = d2 !! py f) →
  _calculate_resume_completeness (PDict d1)
  = _calculate_resume_completeness (PDict d2).
Proof.
  intros Hagree. unfold _calculate_resume_completeness.
  rewrite (score_loop_ext (PDict d1) (PDict d2)); [done|].
  apply Forall_forall. intros [f chk] Hfc.
  rewrite !field_populated_dict. unfold dict_get. simpl.
  rewrite Hagree; [done|]. unfold schema_fields.
  apply list_elem_of_fmap. by exists (f, chk).
Qed.

Lemma C10_witness :
  (∀ f, f ∈ schema_fields →
        record_jane_doe !! py f
        = (<[py "hobby" := PStr (py "chess")]> record_jane_doe) !! py f)
  ∧ _calculate_resume_completeness (PDict record_jane_doe)
    = _calculate_resume_completeness
        (PDict (<[py "hobby" := PStr (py "chess")]> record_jane_doe)).
Proof.
  assert (∀ f, f ∈ schema_fields →
            record_jane_doe !! py f
            = (<[py "hobby" := PStr (py "chess")]> record_jane_doe) !! py f)
    as Hagree.
  { intros f Hf. rewrite lookup_insert_ne; [done|].
    intros Heq%(inj py). subst f. revert Hf. vm_compute.
    intros Hf. repeat (apply elem_of_cons in Hf as [[=]|Hf]).
    by apply elem_of_nil in Hf. }
  split; [exact Hagree|].
  exact (C10_only_schema_keys_matter _ _ Hagree).
Defined.

(** *** Populating one scalar field *)

Lemma filter_ne_not_elem (f : string) (l : list string) :
  f ∉ l → filter (λ g, g ≠ f) l = l.
Proof.
  induction l as [|x l IH]; [done|]. intros [Hx Hl]%not_elem_of_cons.
  rewrite filter_cons_True by done. by rewrite IH.
Qed.

Lemma length_filter_ne (f : string) (l : list string) :
  NoDup l → f ∈ l → length l = S (length (filter (λ g, g ≠ f) l)).
Proof.
  induction 1 as [|x l Hx Hnd IH]; intros Hf; [by apply elem_of_nil in Hf|].
  destruct (decide (x = f)) as [->|Hne].
  - rewrite filter_cons_False by naive_solver.
    by rewrite filter_ne_not_elem.
  - rewrite filter_cons_True by done. simpl. f_equal. apply IH.
    apply elem_of_cons in Hf as [?|?]; [congruence|done].
Qed.

(** If [v'] passes the check of field [f] and gets the verdict of [v] on
    every other field, its missing list is that of [v] without [f], and it
    has at least as many populated fields. *)
Lemma missing_of_populate v v' (f : string) criteria :
  Forall (λ fc, if decide (fc.1 = f) then is_populated v' fc = true
                else is_populated v' fc = is_populated v fc) criteria →
  missing_of v' criteria = filter (λ g, g ≠ f) (missing_of v criteria)
  ∧ (populated_count v criteria ≤ populated_count v' criteria)%Z.
Proof.
  induction 1 as [|fc rest Hfc _ [IH1 IH2]]; [done|].
  rewrite !missing_of_cons, !populated_count_cons, filter_app, <- IH1.
  destruct (decide (fc.1 = f)) as [Heq|Hne].
  - rewrite Hfc. destruct (is_populated v fc).
    + split; [done|lia].
    + rewrite filter_cons_False by naive_solver. split; [done|lia].
  - rewrite Hfc. destruct (is_populated v fc).
    + split; [done|lia].
    + rewrite filter_cons_True by done. split; [done|lia].
Qed.

Section populate_scalar.
Context (d : gmap (list N) pyval) (f : string) (s : pystr).

Lemma field_populated_insert_ne g chk :
  g ≠ f →
  field_populated (PDict (<[py f := PStr s]> d)) (g, chk)
  = field_populated (PDict d) (g, chk).
Proof.
  intros Hne. rewrite !field_populated_dict. unfold dict_get. simpl.
  rewrite lookup_insert_ne; [done|]. by intros ?%(inj py).
Qed.

Lemma field_populated_insert_eq :
  strip s ≠ [] →
  field_populated (PDict (<[py f := PStr s]> d)) (f, check_scalar) = Ok true.
Proof.
  intros Hs. apply field_populated_true. exists (PStr s).
  split_and!; [apply lookup_insert_eq|done|].
  apply check_scalar_true. eauto.
Qed.
End populate_scalar.

(** C4: when a scalar field judged missing is given a string whose trimmed
    form is not empty, the other fields being left as they are, the scorer
    returns a percentage that is not lower, and the missing list is the
    former one with exactly that field taken out. *)
Theorem C4_populating_a_scalar_field
    (d : gmap (list N) pyval) (f : string) (s : pystr) (pct : Z)
    (missing : list string) :
  f ∈ scalar_fields →
  strip s ≠ [] →
  _calculate_resume_completeness (PDict d) = Ok (pct, missing) →
  f ∈ missing →
  ∃ pct',
    _calculate_resume_completeness (PDict (<[py f := PStr s]> d))
      = Ok (pct', filter (λ g, g ≠ f) missing)
    ∧ (pct ≤ pct')%Z
    ∧ length missing = S (length (filter (λ g, g ≠ f) missing)).
Proof.
  intros Hf Hs (Hv & -> & ->)%score_Ok Hmiss.
  apply scalar_in_criteria in Hf.
  assert (∀ g chk, (g, chk) ∈ completeness_criteria → g = f →
            field_populated (PDict (<[py f := PStr s]> d)) (g, chk) = Ok true)
    as Hsame.
  { intros g chk Hin ->.
    rewrite (NoDup_fst_unique _ _ _ _ schema_fields_NoDup Hin Hf).
    by apply field_populated_insert_eq. }
  assert (every_check_returns (PDict (<[py f := PStr s]> d))) as Hv'.
  { unfold every_check_returns in *. rewrite Forall_forall in Hv.
    apply Forall_forall. intros [g chk] Hin.
    destruct (decide (g = f)) as [Heq|Hne]; [eauto|].
    rewrite field_populated_insert_ne by done. by apply Hv. }
  destruct (missing_of_populate (PDict d) (PDict (<[py f := PStr s]> d)) f
              completeness_criteria) as [Hm Hp].
  { apply Forall_forall. intros [g chk] Hin. simpl.
    destruct (decide (g = f)) as [Heq|Hne].
    - by apply is_populated_Ok, Hsame.
    - unfold is_populated. by rewrite field_populated_insert_ne. }
  eexists. split_and!.
  - rewrite (score_returns _ Hv'), Hm. done.
  - apply Z.div_le_mono; lia.
  - apply length_filter_ne; [|done].
    eapply sublist_NoDup; [apply schema_fields_NoDup|apply missing_of_sublist].
Qed.

Lemma C4_witness :
  "email" ∈ scalar_fields
  ∧ strip (py " jane@example.com ") ≠ []
  ∧ ∃ pct',
      _calculate_resume_completeness
        (PDict (<[py "email" := PStr (py " jane@example.com ")]> record_jane_doe))
      = Ok (pct',
            filter (λ g, g ≠ "email")
              [ "professionalTitle"; "email"; "phone"; "location";
                "linkedinURL"; "website"; "professionalSummary";
                "workExperience"; "education"; "skills"; "languages";
                "certifications" ])
      ∧ (14 ≤ pct')%Z.
Proof.
  assert ("email" ∈ scalar_fields) as Hf by in_list.
  assert (strip (py " jane@example.com ") ≠ []) as Hs by (by vm_compute).
  split; [exact Hf|]. split; [exact Hs|].
  destruct (C4_populating_a_scalar_field record_jane_doe "email"
              (py " jane@example.com ") 14
              [ "professionalTitle"; "email"; "phone"; "location";
                "linkedinURL"; "website"; "professionalSummary";
                "workExperience"; "education"; "skills"; "languages";
                "certifications" ] Hf Hs)
    as (pct' & Hscore & Hle & _).
  - vm_compute. reflexivity.
  - in_list.
  - exists pct'. split; [exact Hscore|exact Hle].
Defined.

(** ** What the scorer can raise *)

Lemma py_get_raises v k e :
  py_get v k = Raise e → ∃ msg, e = AttributeError msg.
Proof. destruct v; simpl; intros [= <-]; eauto. Qed.

Lemma bind_Raise {A B} (f : A → result B) (m : result A) (e : exn) :
  m ≫= f = Raise e ↔ m = Raise e ∨ ∃ a, m = Ok a ∧ f a = Raise e.
Proof.
  destruct m as [a|e']; simpl; split.
  - eauto.
  - by intros [|(a' & [= <-] & ?)].
  - intros [= <-]. eauto.
  - by intros [[= <-]|(? & ? & ?)].
Qed.

Lemma py_all_raises entry l e :
  py_all entry l = Raise e → ∃ item, item ∈ l ∧ entry item = Raise e.
Proof.
  induction l as [|item rest IH]; simpl; [done|].
  intros [H|(b & Hb & H)]%bind_Raise.
  - exists item. split; [apply list_elem_of_here|done].
  - destruct b; [|done]. destruct (IH H) as (item' & ? & ?).
    exists item'. split; [by apply list_elem_of_further|done].
Qed.

Lemma requires1_raises a item e :
  requires1 a item = Raise e → ∃ msg, e = AttributeError msg.
Proof.
  unfold requires1. intros [H|(x & _ & H)]%bind_Raise; [|done].
  by eapply py_get_raises.
Qed.

Lemma requires2_raises a b item e :
  requires2 a b item = Raise e → ∃ msg, e = AttributeError msg.
Proof.
  unfold requires2. intros [H|(x & _ & H)]%bind_Raise.
  - by eapply py_get_raises.
  - destruct (truthy x); [|done].
    apply bind_Raise in H as [H|(y & _ & H)]; [|done].
    by eapply py_get_raises.
Qed.

Lemma check_entries_raises entry x e :
  (∀ item e', entry item = Raise e' → ∃ msg, e' = AttributeError msg) →
  check_entries entry x = Raise e → ∃ msg, e = AttributeError msg.
Proof.
  intros Hentry. destruct x as [| | | | |l|]; simpl; try done.
  destruct (0 <? length l)%nat; [|done].
  intros (item & _ & H)%py_all_raises. eauto.
Qed.

Lemma field_populated_raises v fc e :
  fc ∈ completeness_criteria →
  field_populated v fc = Raise e → ∃ msg, e = AttributeError msg.
Proof.
  intros Hfc. unfold field_populated.
  intros [H|(value & _ & H)]%bind_Raise; [by eapply py_get_raises|].
  assert (fc.2 value = Raise e) as Hchk by (by destruct value).
  clear H. revert Hchk. unfold completeness_criteria in Hfc.
  repeat (apply elem_of_cons in Hfc as [->|Hfc]);
    [..|by apply elem_of_nil in Hfc]; simpl.
  all: try (by destruct value).
  all: apply check_entries_raises;
    eauto using requires1_raises, requires2_raises.
Qed.

Lemma score_loop_raises v criteria p m e :
  score_loop v criteria p m = Raise e →
  ∃ fc, fc ∈ criteria ∧ field_populated v fc = Raise e.
Proof.
  revert p m. induction criteria as [|fc rest IH]; intros p m; simpl; [done|].
  intros [H|(b & _ & H)]%bind_Raise.
  - exists fc. split; [apply list_elem_of_here|done].
  - assert (∃ fc', fc' ∈ rest ∧ field_populated v fc' = Raise e)
      as (fc' & ? & ?) by (destruct b; eauto).
    exists fc'. split; [by apply list_elem_of_further|done].
Qed.

(** The scorer raises nothing but the [AttributeError] of a [.get] on a
    value that is not a [dict]. *)
Lemma score_raises v e :
  _calculate_resume_completeness v = Raise e → ∃ msg, e = AttributeError msg.
Proof.
  intros H.
  destruct (score_loop v completeness_criteria 0 []) as [[p m]|e'] eqn:Hloop.
  - apply score_loop_Ok_each in Hloop as Hv.
    by rewrite (score_returns _ Hv) in H.
  - unfold _calculate_resume_completeness in H. rewrite Hloop in H.
    simpl in H. injection H as <-.
    apply score_loop_raises in Hloop as (fc & Hfc & Hraise).
    by eapply field_populated_raises.
Qed.

(** ** The pipeline *)

Lemma locate_text_first_part response :
  locate_text response =
  match first_part response with
  | Some part => Ok (part_text part)
  | None => text_fallback response
  end.
Proof.
  unfold locate_text, first_part.
  destruct (candidates response) as [|[[[[|part ps]]|]] cs]; reflexivity.
Qed.

Lemma text_fallback_without_text response :
  text response = NoAttribute ∨ text response = Reads [] →
  text_fallback response = Raise unexpected_structure.
Proof. unfold text_fallback. by intros [->| ->]. Qed.

Lemma text_fallback_raising response msg :
  text response = RaisesValueError msg →
  text_fallback response = Raise (ValueError msg).
Proof. unfold text_fallback. by intros ->. Qed.

(** What the fallback raises: the exception of the [else] branch, or the
    [ValueError] of the read. *)
Lemma text_fallback_raises response e :
  text_fallback response = Raise e →
  (e = unexpected_structure
   ∧ (text response = NoAttribute ∨ text response = Reads []))
  ∨ (∃ msg, e = ValueError msg ∧ text response = RaisesValueError msg).
Proof.
  unfold text_fallback. destruct (text response) as [|t|msg].
  - intros [= <-]. left. eauto.
  - case_bool_decide as Ht; [|done]. subst t. intros [= <-]. left. eauto.
  - intros [= <-]. right. eauto.
Qed.

Lemma starts_with_app (s r : pystr) : starts_with (s ++ r) s = true.
Proof.
  induction s as [|c s IH]; simpl; [done|]. by rewrite N.eqb_refl, IH.
Qed.

Lemma starts_with_spec (s needle : pystr) :
  starts_with s needle = true → ∃ r, s = needle ++ r.
Proof.
  revert s. induction needle as [|c needle IH]; intros s; simpl; [eauto|].
  destruct s as [|c' s]; [done|].
  intros [->%N.eqb_eq (r & ->)%IH]%andb_true_iff. eauto.
Qed.

Lemma contains_spec (s needle : pystr) :
  contains s needle = true → occurs_in needle s.
Proof.
  induction s as [|c s IH]; simpl.
  - rewrite orb_false_r. intros (r & ->)%starts_with_spec. by exists [], r.
  - intros [(r & ->)%starts_with_spec|(a & b & ->)%IH]%orb_true_iff.
    + by exists [], r.
    + by exists (c :: a), b.
Qed.

(** Every failure of the pipeline has one of the three kinds, provided the
    model client raises no [HTTPException] of its own; an error of the
    scorer is among the failures of the model call. *)
Lemma pipeline_failure_kinds generate_content json_loads text_content e :
  (∀ p c d h, generate_content p ≠ Raise (HTTPException c d h)) →
  extract_info_with_gemini generate_content json_loads text_content = Raise e →
  ∃ kind, kind_of e = Some kind.
Proof.
  intros Hgen. unfold extract_info_with_gemini.
  assert (∀ e', kind_of (failed_to_communicate e') = Some ModelCallFailed) as Hfail.
  { intros e'. unfold failed_to_communicate, kind_of.
    change (HTTP_500_INTERNAL_SERVER_ERROR =? HTTP_422_UNPROCESSABLE_ENTITY)%Z
      with false.
    change (HTTP_500_INTERNAL_SERVER_ERROR =? HTTP_500_INTERNAL_SERVER_ERROR)%Z
      with true.
    cbv iota. rewrite starts_with_app, bool_decide_eq_false_2; [done|].
    intros H. cbv in H. discriminate H. }
  destruct (generate_content (prompt text_content)) as [response|e0] eqn:Hg; simpl.
  - destruct (locate_text response) as [generated_text|e1] eqn:Hloc; simpl.
    + unfold parse_and_score.
      destruct (json_loads (strip generated_text)) as [parsed_json|].
      * destruct (_calculate_resume_completeness parsed_json)
          as [[score missing]|e2] eqn:Hscore; simpl; [done|].
        apply score_raises in Hscore as [msg ->]. intros [= <-]. eauto.
      * intros [= <-]. by exists AIResponseNotJSON.
    + rewrite locate_text_first_part in Hloc.
      destruct (first_part response); [done|].
      apply text_fallback_raises in Hloc as [[-> _]|(msg & -> & _)].
      * intros [= <-]. by exists ModelResponseMalformed.
      * intros [= <-]. eauto.
  - destruct e0; try (intros [= <-]; eauto). by destruct (Hgen _ _ _ _ Hg).
Qed.

(** *** Decoded values the scorer cannot take *)

(** C5 (the code departs from it): on a decoded object whose [skills] list
    holds a bare string the scorer raises [AttributeError], and the pipeline
    reports it as a failure to communicate with the model; the same happens
    on a decoded value that is not an object. *)
Theorem C5_scorer_raises_on_bare_entry :
  _calculate_resume_completeness (PDict record_bare_skill)
    = Raise (AttributeError (py "'str' object has no attribute 'get'"))
  ∧ _calculate_resume_completeness (PList [])
    = Raise (AttributeError (py "'list' object has no attribute 'get'"))
  ∧ (∀ generate_content json_loads text_content response generated_text,
       generate_content (prompt text_content) = Ok response →
       locate_text response = Ok generated_text →
       json_loads (strip generated_text) = Some (PDict record_bare_skill) →
       extract_info_with_gemini generate_content json_loads text_content
       = Raise (HTTPException 500
                  (py "Failed to communicate with AI model: 'str' object has no attribute 'get'")
                  []))
  ∧ extract_info_with_gemini (λ _, Ok (response_with_part (py "[]")))
      literal_loads (py "resume")
    = Raise (HTTPException 500
               (py "Failed to communicate with AI model: 'list' object has no attribute 'get'")
               []).
Proof.
  split_and!.
  - by vm_compute.
  - by vm_compute.
  - intros gen loads txt response generated_text Hgen Hloc Hloads.
    unfold extract_info_with_gemini. rewrite Hgen. simpl. rewrite Hloc. simpl.
    unfold parse_and_score. rewrite Hloads. by vm_compute.
  - by vm_compute.
Qed.

(** *** Text that is not JSON *)



(** *** A response without a text payload *)

(** How the pipeline fails once the model has answered: on a text that is
    not JSON, on a decoded value the scorer cannot take, in the [else]
    branch, or on the [ValueError] of reading [.text]. *)
Lemma pipeline_raises_cases generate_content json_loads text_content response e :
  generate_content (prompt text_content) = Ok response →
  extract_info_with_gemini generate_content json_loads text_content = Raise e →
  (∃ generated_text,
     locate_text response = Ok generated_text
     ∧ (e = not_valid_json generated_text
        ∨ ∃ msg, e = failed_to_communicate (AttributeError msg)))
  ∨ (first_part response = None
     ∧ (text response = NoAttribute ∨ text response = Reads [])
     ∧ e = unexpected_structure)
  ∨ (first_part response = None
     ∧ ∃ msg, text response = RaisesValueError msg
              ∧ e = failed_to_communicate (ValueError msg)).
Proof.
  intros Hgen. unfold extract_info_with_gemini. rewrite Hgen. simpl.
  destruct (locate_text response) as [generated_text|e1] eqn:Hloc; simpl.
  - intros Hrun. left. exists generated_text. split; [done|].
    unfold parse_and_score in Hrun.
    destruct (json_loads (strip generated_text)) as [parsed_json|].
    + destruct (_calculate_resume_completeness parsed_json)
        as [[score missing]|e2] eqn:Hscore; simpl in Hrun; [done|].
      apply score_raises in Hscore as [msg ->].
      injection Hrun as <-. right. by exists msg.
    + injection Hrun as <-. by left.
  - rewrite locate_text_first_part in Hloc.
    destruct (first_part response); [done|].
    apply text_fallback_raises in Hloc as [[-> Htext]|(msg & -> & Htext)].
    + intros [= <-]. right. left. done.
    + intros [= <-]. right. right. split; [done|]. by exists msg.
Qed.

Lemma kind_of_failed_to_communicate e :
  kind_of (failed_to_communicate e) = Some ModelCallFailed.
Proof.
  unfold failed_to_communicate, kind_of.
  change (HTTP_500_INTERNAL_SERVER_ERROR =? HTTP_422_UNPROCESSABLE_ENTITY)%Z
    with false.
  change (HTTP_500_INTERNAL_SERVER_ERROR =? HTTP_500_INTERNAL_SERVER_ERROR)%Z
    with true.
  cbv iota. rewrite starts_with_app, bool_decide_eq_false_2; [done|].
  intros H. cbv in H. discriminate H.
Qed.

(** C7 (the code departs from it): on a response of the model client
    without a candidate, as for a blocked prompt, neither access path
    yields a text, and the pipeline does not fail with the
    [ModelResponseMalformed] kind: the test [hasattr(response, 'text')]
    reads the attribute, the read raises [ValueError], and the last
    [except] clause reports it as a failure to communicate with the model,
    the [ModelCallFailed] shape. This holds of every response without a
    first part whose [.text] raises, so that on the responses of the model
    client the pipeline never raises the exception of the [else] branch:
    that branch is reached exactly by an object without a first part whose
    [.text] is missing or reads empty. A response whose first part holds
    the empty string has no text either; the empty string is sent to the
    decoder, and a decoder that rejects it gives the not-JSON failure. *)
Theorem C7_unreadable_text_is_a_call_failure :
  (no_text_payload response_blocked
   ∧ client_response response_blocked
   ∧ ∀ json_loads text_content,
       extract_info_with_gemini (λ _, Ok response_blocked)
         json_loads text_content
       = Raise (HTTPException 500
                  (py ("Failed to communicate with AI model: "
                       +:+ "response.candidates is empty"))
                  []))
  ∧ (∀ generate_content json_loads text_content response msg,
       generate_content (prompt text_content) = Ok response →
       first_part response = None →
       text response = RaisesValueError msg →
       no_text_payload response
       ∧ extract_info_with_gemini generate_content json_loads text_content
         = Raise (HTTPException 500
                    (py "Failed to communicate with AI model: " ++ msg) [])
       ∧ kind_of (HTTPException 500
                    (py "Failed to communicate with AI model: " ++ msg) [])
         = Some ModelCallFailed)
  ∧ (∀ generate_content json_loads text_content response e,
       generate_content (prompt text_content) = Ok response →
       client_response response →
       extract_info_with_gemini generate_content json_loads text_content
         = Raise e →
       kind_of e ≠ Some ModelResponseMalformed)
  ∧ (∀ generate_content json_loads text_content response,
       generate_content (prompt text_content) = Ok response →
       extract_info_with_gemini generate_content json_loads text_content
         = Raise unexpected_structure
       ↔ first_part response = None
         ∧ (text response = NoAttribute ∨ text response = Reads []))
  ∧ (no_text_payload (response_with_part [])
     ∧ ∀ generate_content json_loads text_content,
         generate_content (prompt text_content) = Ok (response_with_part []) →
         json_loads (strip []) = None →
         extract_info_with_gemini generate_content json_loads text_content
           = Raise (not_valid_json [])
         ∧ kind_of (not_valid_json []) = Some AIResponseNotJSON).
Proof.
  assert (∀ generate_content json_loads text_content response msg,
            generate_content (prompt text_content) = Ok response →
            first_part response = None →
            text response = RaisesValueError msg →
            extract_info_with_gemini generate_content json_loads text_content
            = Raise (failed_to_communicate (ValueError msg))) as Hraises.
  { intros gen loads txt response msg Hgen Hpath Htext.
    unfold extract_info_with_gemini. rewrite Hgen. simpl.
    rewrite locate_text_first_part, Hpath.
    by rewrite (text_fallback_raising _ msg). }
  split_and!.
  - split; [by left|]. intros t Ht. discriminate Ht.
  - intros _. by eexists.
  - intros loads txt.
    by rewrite (Hraises (λ _, Ok response_blocked) loads txt response_blocked
                  (py "response.candidates is empty")).
  - intros gen loads txt response msg Hgen Hpath Htext. split_and!.
    + split; [by left|]. intros t Ht. congruence.
    + by rewrite (Hraises gen loads txt response msg).
    + apply (kind_of_failed_to_communicate (ValueError msg)).
  - intros gen loads txt response e Hgen Hclient Hrun.
    destruct (pipeline_raises_cases _ _ _ _ _ Hgen Hrun)
      as [(g & _ & [->|[msg ->]])|[(Hpath & Htext & _)|(_ & msg & _ & ->)]].
    + done.
    + by rewrite kind_of_failed_to_communicate.
    + destruct (Hclient Hpath) as [msg Hmsg].
      destruct Htext as [Htext|Htext]; congruence.
    + by rewrite kind_of_failed_to_communicate.
  - intros gen loads txt response Hgen. split.
    + intros Hrun.
      destruct (pipeline_raises_cases _ _ _ _ _ Hgen Hrun)
        as [(g & _ & [He|[msg He]])|[(Hpath & Htext & _)|(_ & msg & _ & He)]].
      * discriminate He.
      * apply (f_equal kind_of) in He.
        rewrite kind_of_failed_to_communicate in He. discriminate He.
      * done.
      * apply (f_equal kind_of) in He.
        rewrite kind_of_failed_to_communicate in He. discriminate He.
    + intros [Hpath Htext]. unfold extract_info_with_gemini.
      rewrite Hgen. simpl. rewrite locate_text_first_part, Hpath.
      by rewrite text_fallback_without_text.
  - split; [by right|]. intros t [= <-]. done.
  - intros gen loads txt Hgen Hloads. split; [|reflexivity].
    unfold extract_info_with_gemini. rewrite Hgen. simpl.
    unfold parse_and_score. by rewrite Hloads.
Qed.

(** *** The prompt *)

(** C8: the prompt is a function of the text alone: a fixed head, the text
    as it is between the two [---] lines, and a fixed tail, nothing of the
    text being checked or cut. The head holds the instruction to return
    only a JSON object and no markdown, the description of every field of
    the rubric and of the required sub-fields, the [null] and [[]] policy
    and the default to the ['Beginner'] level. *)
Theorem C8_prompt_embeds_text_verbatim :
  ∃ head tail : pystr,
    (∀ text_content,
       prompt text_content =
         head
         ++ py ("Resume Text to Analyze:" +:+ newline +:+ "    ---" +:+ newline
                +:+ "    ")
         ++ text_content
         ++ py (newline +:+ "    ---" +:+ newline)
         ++ tail
       ∧ length (prompt text_content) = (3120 + length text_content)%nat)
    ∧ Forall (λ i, occurs_in (py i) head) prompt_instructions
    ∧ Forall (λ f, occurs_in (py (scalar_description f)) head) scalar_fields
    ∧ Forall (λ f, occurs_in (py (array_description f)) head)
        (structured_fields ++ ["certifications"])
    ∧ Forall (λ fk, Forall (λ k, occurs_in (py (scalar_description k)) head) fk.2)
        required_subfields
    ∧ occurs_in (py (scalar_description "level")) head.
Proof.
  set (delimiter := py ("Resume Text to Analyze:" +:+ newline +:+ "    ---"
                        +:+ newline +:+ "    ")).
  set (before := py (String.concat newline prompt_before)).
  exists (take (length before - length delimiter) before), (py "    ").
  assert (before = take (length before - length delimiter) before ++ delimiter)
    as Hbefore by (by vm_compute).
  assert (∀ needle,
            contains (take (length before - length delimiter) before) (py needle)
            = true →
            occurs_in (py needle) (take (length before - length delimiter) before))
    as Hocc by (intros needle; apply contains_spec).
  split_and!.
  - intros text_content. split.
    + unfold prompt. fold before. rewrite Hbefore at 1.
      rewrite <- !app_assoc. do 3 f_equal.
    + assert (length before
              + length (py (String.concat newline prompt_after)) = 3120)%nat
        as Hlen by (by vm_compute).
      unfold prompt. rewrite !length_app. fold before. lia.
  - repeat (apply Forall_cons; split); try apply Forall_nil_2;
      apply Hocc; by vm_compute.
  - repeat (apply Forall_cons; split); try apply Forall_nil_2;
      apply Hocc; by vm_compute.
  - repeat (apply Forall_cons; split); try apply Forall_nil_2;
      apply Hocc; by vm_compute.
  - repeat (apply Forall_cons; split); try apply Forall_nil_2;
      apply Hocc; by vm_compute.
  - apply Hocc; by vm_compute.
Qed.


(** ** Whitespace *)

Lemma lstrip_blank s : blank s → lstrip s = [].
Proof. induction 1 as [|c s Hc _ IH]; simpl; [done|]. by rewrite Hc. Qed.

Lemma lstrip_nil_blank s : lstrip s = [] → blank s.
Proof.
  unfold blank. induction s as [|c s IH]; simpl; [constructor|].
  destruct (isspace c) eqn:Hc; [|done]. intros H. apply Forall_cons. auto.
Qed.

Lemma lstrip_app a b :
  lstrip (a ++ b) = match lstrip a with [] => lstrip b | _ => lstrip a ++ b end.
Proof.
  induction a as [|c a IH]; simpl; [by destruct (lstrip b)|].
  by destruct (isspace c).
Qed.

Lemma lstrip_head s : lstrip s = [] ∨ ∃ c r, lstrip s = c :: r ∧ isspace c = false.
Proof.
  induction s as [|c s IH]; simpl; [by left|].
  destruct (isspace c) eqn:Hc; [done|]. right. eauto.
Qed.

Lemma rstrip_app_blank a b : blank b → rstrip (a ++ b) = rstrip a.
Proof.
  intros Hb. unfold rstrip. rewrite reverse_app, lstrip_app.
  rewrite lstrip_blank; [done|]. unfold blank. by rewrite Forall_reverse.
Qed.

Lemma rstrip_blank s : blank s → rstrip s = [].
Proof.
  intros Hs. unfold rstrip. rewrite lstrip_blank; [done|].
  unfold blank. by rewrite Forall_reverse.
Qed.

(** [strip] gives the empty string exactly on whitespace. *)
Lemma strip_nil_iff s : strip s = [] ↔ blank s.
Proof.
  unfold strip. split.
  - intros H. apply lstrip_nil_blank.
    destruct (lstrip_head s) as [->|(c & r & Heq & Hc)]; [done|].
    rewrite Heq in H. unfold rstrip in H.
    apply (f_equal length) in H. rewrite length_reverse in H.
    apply nil_length_inv, lstrip_nil_blank in H. unfold blank in H.
    rewrite Forall_reverse in H.
    apply Forall_cons in H as [H _]. congruence.
  - intros H. by rewrite (lstrip_blank _ H).
Qed.

(** Whitespace around a string does not change its [strip]. *)
Lemma strip_surrounded before s after :
  blank before → blank after → strip (before ++ s ++ after) = strip s.
Proof.
  intros Hb Ha. unfold strip. rewrite lstrip_app, (lstrip_blank _ Hb).
  rewrite lstrip_app. destruct (lstrip s) as [|c r] eqn:Hs.
  - rewrite (lstrip_blank _ Ha). done.
  - by rewrite rstrip_app_blank.
Qed.

(** ** More on the scorer *)

Lemma percentage_strictly_monotone (a b : Z) :
  (0 ≤ a)%Z → (a < b)%Z → (100 * a / 14 < 100 * b / 14)%Z.
Proof.
  intros Ha Hab.
  pose proof (Z.div_mod (100 * a) 14 ltac:(lia)) as Hqa.
  pose proof (Z.mod_pos_bound (100 * a) 14 ltac:(lia)) as Hra.
  pose proof (Z.div_mod (100 * b) 14 ltac:(lia)) as Hqb.
  pose proof (Z.mod_pos_bound (100 * b) 14 ltac:(lia)) as Hrb.
  lia.
Qed.

Lemma missing_of_length_le v criteria :
  (length (missing_of v criteria) ≤ length criteria)%nat.
Proof. unfold missing_of. rewrite length_fmap. apply length_filter. Qed.

Lemma missing_of_all v criteria :
  length (missing_of v criteria) = length criteria →
  missing_of v criteria = criteria.*1.
Proof.
  induction criteria as [|fc rest IH]; [done|].
  rewrite missing_of_cons. pose proof (missing_of_length_le v rest).
  destruct (is_populated v fc); simpl; intros Hlen; [lia|].
  f_equal. apply IH. lia.
Qed.

(** The percentage and the number of missing fields of a score. *)
Lemma score_percentage_of_missing v pct missing :
  _calculate_resume_completeness v = Ok (pct, missing) →
  (length missing ≤ 14)%nat
  ∧ pct = (100 * (14 - Z.of_nat (length missing)) / 14)%Z.
Proof.
  intros (_ & -> & ->)%score_Ok.
  pose proof (populated_plus_missing v completeness_criteria) as Hsum.
  pose proof (missing_of_length_le v completeness_criteria) as Hle.
  rewrite total_fields_14 in Hsum, Hle. split; [done|]. f_equal. lia.
Qed.

(** X1: the percentage tells the number of missing fields: of two scores,
    the higher percentage has the shorter missing list and equal
    percentages have missing lists of equal length; 100 is returned only
    with an empty missing list and 0 only with all 14 names. *)
Theorem X1_percentage_reflects_missing_count
    (v1 v2 : pyval) (pct1 pct2 : Z) (missing1 missing2 : list string) :
  _calculate_resume_completeness v1 = Ok (pct1, missing1) →
  _calculate_resume_completeness v2 = Ok (pct2, missing2) →
  ((pct1 < pct2)%Z ↔ (length missing2 < length missing1)%nat)
  ∧ (pct1 = pct2 ↔ length missing1 = length missing2)
  ∧ (pct1 = 100%Z ↔ missing1 = [])
  ∧ (pct1 = 0%Z ↔ missing1 = schema_fields).
Proof.
  intros H1 H2.
  destruct (score_percentage_of_missing _ _ _ H1) as [Hle1 Hp1].
  destruct (score_percentage_of_missing _ _ _ H2) as [Hle2 Hp2].
  assert (∀ a b : nat, (a ≤ 14)%nat → (b ≤ 14)%nat → (a < b)%nat →
            (100 * (14 - Z.of_nat b) / 14 < 100 * (14 - Z.of_nat a) / 14)%Z)
    as Hmono.
  { intros a b Ha Hb Hab. apply percentage_strictly_monotone; lia. }
  assert ((pct1 < pct2)%Z ↔ (length missing2 < length missing1)%nat) as Hlt.
  { subst pct1 pct2. split; [|by apply Hmono].
    intros Hlt. destruct (decide (length missing2 < length missing1)%nat); [done|].
    destruct (decide (length missing1 = length missing2)) as [Heq|Hne].
    - rewrite Heq in Hlt. lia.
    - pose proof (Hmono (length missing1) (length missing2)). lia. }
  assert (pct1 = pct2 ↔ length missing1 = length missing2) as Heq.
  { split; [|intros Hlen; subst pct1 pct2; by rewrite Hlen].
    intros Hpct.
    destruct (decide (length missing1 < length missing2)%nat) as [Hl|Hl].
    { pose proof (Hmono _ _ Hle1 Hle2 Hl). lia. }
    destruct (decide (length missing2 < length missing1)%nat) as [Hr|Hr].
    { pose proof (Hmono _ _ Hle2 Hle1 Hr). lia. }
    lia. }
  split_and!; [done|done| |].
  - split.
    + intros ->. destruct missing1 as [|f rest]; [done|].
      pose proof (Hmono 0%nat (length (f :: rest)) ltac:(lia) Hle1
                    ltac:(simpl; lia)) as Hlow.
      rewrite <- Hp1 in Hlow.
      change (100 * (14 - Z.of_nat 0) / 14)%Z with 100%Z in Hlow. lia.
    + intros ->. by rewrite Hp1.
  - apply score_Ok in H1 as (_ & _ & Hm1). split.
    + intros ->. rewrite Hm1. apply missing_of_all. rewrite total_fields_14.
      destruct (decide (length missing1 = 14%nat)) as [Hlen|Hlen];
        [by rewrite <- Hm1|].
      pose proof (Hmono (length missing1) 14%nat Hle1 ltac:(lia) ltac:(lia))
        as Hlow.
      rewrite <- Hp1 in Hlow.
      change (100 * (14 - Z.of_nat 14) / 14)%Z with 0%Z in Hlow. lia.
    + intros ->. by rewrite Hp1.
Qed.

Lemma X1_witness :
  _calculate_resume_completeness (PDict record_jane_doe) =
    Ok (14%Z,
        [ "professionalTitle"; "email"; "phone"; "location"; "linkedinURL";
          "website"; "professionalSummary"; "workExperience"; "education";
          "skills"; "languages"; "certifications" ])
  ∧ _calculate_resume_completeness (PDict record_full) = Ok (100%Z, [])
  ∧ ((14 < 100)%Z ↔ (0 < 12)%nat).
Proof.
  assert (_calculate_resume_completeness (PDict record_jane_doe) =
    Ok (14%Z,
        [ "professionalTitle"; "email"; "phone"; "location"; "linkedinURL";
          "website"; "professionalSummary"; "workExperience"; "education";
          "skills"; "languages"; "certifications" ])) as H1
    by (vm_compute; reflexivity).
  assert (_calculate_resume_completeness (PDict record_full) = Ok (100%Z, []))
    as H2 by (vm_compute; reflexivity).
  split; [exact H1|]. split; [exact H2|].
  destruct (X1_percentage_reflects_missing_count _ _ _ _ _ _ H1 H2) as [Hlt _].
  exact Hlt.
Defined.

Lemma score_ext v1 v2 :
  Forall (λ fc, field_populated v1 fc = field_populated v2 fc)
    completeness_criteria →
  _calculate_resume_completeness v1 = _calculate_resume_completeness v2.
Proof.
  intros H. unfold _calculate_resume_completeness.
  by rewrite (score_loop_ext v1 v2).
Qed.

Lemma field_populated_same_get d1 d2 fc :
  dict_get d1 (py fc.1) = dict_get d2 (py fc.1) →
  field_populated (PDict d1) fc = field_populated (PDict d2) fc.
Proof. intros H. by rewrite !field_populated_dict, H. Qed.

(** X2: a key holding [null] and an absent key are scored alike. *)
Theorem X2_null_is_scored_as_absent (d : gmap (list N) pyval) (k : pystr) :
  _calculate_resume_completeness (PDict (<[k := PNone]> d))
  = _calculate_resume_completeness (PDict (delete k d)).
Proof.
  apply score_ext, Forall_forall. intros fc _.
  apply field_populated_same_get. unfold dict_get.
  destruct (decide (k = py fc.1)) as [->|Hne].
  - by rewrite lookup_insert_eq, lookup_delete_eq.
  - by rewrite lookup_insert_ne, lookup_delete_ne.
Qed.

#[global] Instance exn_eq_dec : EqDecision exn.
Proof. solve_decision. Defined.

#[global] Instance result_eq_dec {A} `{EqDecision A} : EqDecision (result A).
Proof. solve_decision. Defined.

(** On a list of objects [all] does not raise, and answers whether every
    entry passes. *)
Lemma py_all_objects entry l :
  (∀ e, ∃ b, entry (PDict e) = Ok b) →
  Forall is_dict l →
  py_all entry l = Ok (bool_decide (Forall (λ item, entry item = Ok true) l)).
Proof.
  intros Hentry. induction 1 as [|item rest Hitem _ IH]; cbn [py_all].
  - by rewrite bool_decide_eq_true_2.
  - destruct item as [| | | | | |e]; try done.
    destruct (Hentry e) as [b Hb]. rewrite Hb. cbn [mbind result_bind].
    destruct b.
    + rewrite IH. f_equal. apply bool_decide_ext. rewrite Forall_cons.
      split; [by split|by intros [_ ?]].
    + f_equal. symmetry. apply bool_decide_eq_false_2.
      rewrite Forall_cons, Hb. by intros [? _].
Qed.

(** The checks of the rubric do not look at the order of a list of
    objects. *)
Lemma check_permutation fc l l' :
  fc ∈ completeness_criteria → Forall is_dict l → l ≡ₚ l' →
  fc.2 (PList l) = fc.2 (PList l').
Proof.
  intros Hfc Hl Hperm.
  assert (Forall is_dict l') as Hl' by (by rewrite <- Hperm).
  assert (length l = length l') as Hlen by (by rewrite Hperm).
  assert (∀ entry, (∀ e, ∃ b, entry (PDict e) = Ok b) →
            check_entries entry (PList l) = check_entries entry (PList l'))
    as Hentries.
  { intros entry Hentry. simpl. rewrite <- Hlen.
    destruct (0 <? length l)%nat; [|done].
    rewrite !py_all_objects by done. f_equal.
    apply bool_decide_ext. by rewrite Hperm. }
  unfold completeness_criteria in Hfc.
  repeat (apply elem_of_cons in Hfc as [->|Hfc]);
    [..|by apply elem_of_nil in Hfc]; simpl fst; simpl snd; try done.
  - apply Hentries. intros e. rewrite requires2_dict. eauto.
  - apply Hentries. intros e. rewrite requires2_dict. eauto.
  - apply Hentries. intros e. rewrite requires1_dict. eauto.
  - apply Hentries. intros e. rewrite requires1_dict. eauto.
  - simpl. by rewrite Hlen.
Qed.

(** X3: the score does not depend on the order of the entries of a list
    of objects. *)
Theorem X3_entry_order_is_irrelevant
    (d : gmap (list N) pyval) (k : pystr) (l l' : list pyval) :
  d !! k = Some (PList l) →
  Forall is_dict l →
  l ≡ₚ l' →
  _calculate_resume_completeness (PDict (<[k := PList l']> d))
  = _calculate_resume_completeness (PDict d).
Proof.
  intros Hget Hl Hperm. apply score_ext, Forall_forall. intros fc Hfc.
  destruct (decide (k = py fc.1)) as [->|Hne].
  - rewrite !field_populated_dict. unfold dict_get.
    rewrite lookup_insert_eq, Hget. simpl.
    symmetry. by apply check_permutation.
  - apply field_populated_same_get. unfold dict_get.
    by rewrite lookup_insert_ne.
Qed.

Lemma X3_witness :
  record_partial_education !! py "education" =
    Some (PList [ PDict (dict_of [("degreeCertification", PStr (py "BSc"));
                                  ("institutionName", PStr (py "X"))]);
                  PDict (dict_of [("degreeCertification", PStr (py ""));
                                  ("institutionName", PStr (py "Y"))]) ])
  ∧ _calculate_resume_completeness
      (PDict (<[py "education" :=
                  PList [ PDict (dict_of [("degreeCertification", PStr (py ""));
                                          ("institutionName", PStr (py "Y"))]);
                          PDict (dict_of [("degreeCertification", PStr (py "BSc"));
                                          ("institutionName", PStr (py "X"))]) ]]>
                record_partial_education))
    = _calculate_resume_completeness (PDict record_partial_education).
Proof.
  assert (record_partial_education !! py "education" =
    Some (PList [ PDict (dict_of [("degreeCertification", PStr (py "BSc"));
                                  ("institutionName", PStr (py "X"))]);
                  PDict (dict_of [("degreeCertification", PStr (py ""));
                                  ("institutionName", PStr (py "Y"))]) ]))
    as Hget by (vm_compute; reflexivity).
  split; [exact Hget|].
  apply (X3_entry_order_is_irrelevant _ _ _ _ Hget).
  - repeat constructor.
  - apply perm_swap.
Defined.

Lemma py_all_same_required entry keys l l' :
  (∀ a b, same_required keys a b → entry a = entry b) →
  Forall2 (same_required keys) l l' →
  py_all entry l = py_all entry l'.
Proof.
  intros Hentry. induction 1 as [|a b l l' Hab _ IH]; simpl; [done|].
  rewrite (Hentry _ _ Hab). destruct (entry b) as [[]|]; simpl; auto.
Qed.

Lemma requires1_same_required a x y :
  same_required [a] x y → requires1 a x = requires1 a y.
Proof.
  intros (ex & ey & -> & -> & H). rewrite !requires1_dict.
  rewrite (H a); [done|in_list].
Qed.

Lemma requires2_same_required a b x y :
  same_required [a; b] x y → requires2 a b x = requires2 a b y.
Proof.
  intros (ex & ey & -> & -> & H). rewrite !requires2_dict.
  rewrite (H a), (H b); [done|in_list..].
Qed.

(** X4: the score reads the entries of a structured collection only
    through the truth values of the required sub-fields: entries changed
    in any other way (dates, locations, descriptions, levels) give the same
    score. *)
Theorem X4_only_required_subfields_matter
    (d : gmap (list N) pyval) (f : string) (keys : list string)
    (l l' : list pyval) :
  (f, keys) ∈ required_subfields →
  d !! py f = Some (PList l) →
  Forall2 (same_required keys) l l' →
  _calculate_resume_completeness (PDict (<[py f := PList l']> d))
  = _calculate_resume_completeness (PDict d).
Proof.
  intros Hf Hget Hsame. apply score_ext, Forall_forall. intros [g chk] Hfc.
  destruct (decide (g = f)) as [->|Hne].
  - rewrite !field_populated_dict. unfold dict_get. simpl.
    rewrite lookup_insert_eq, Hget. simpl.
    assert (∀ entry,
              (∀ a b, same_required keys a b → entry a = entry b) →
              check_entries entry (PList l') = check_entries entry (PList l))
      as Hentries.
    { intros entry Hentry. simpl. rewrite (Forall2_length _ _ _ Hsame).
      destruct (0 <? length l')%nat; [|done].
      symmetry. by eapply py_all_same_required. }
    unfold required_subfields in Hf.
    repeat (apply elem_of_cons in Hf as [[= ? ?]|Hf]);
      [..|by apply elem_of_nil in Hf]; subst.
    + rewrite (NoDup_fst_unique _ _ _
                 (check_entries (requires2 "jobTitle" "company"))
                 schema_fields_NoDup Hfc) by in_list.
      apply Hentries, requires2_same_required.
    + rewrite (NoDup_fst_unique _ _ _
                 (check_entries (requires2 "degreeCertification" "institutionName"))
                 schema_fields_NoDup Hfc) by in_list.
      apply Hentries, requires2_same_required.
    + rewrite (NoDup_fst_unique _ _ _ (check_entries (requires1 "name"))
                 schema_fields_NoDup Hfc) by in_list.
      apply Hentries, requires1_same_required.
    + rewrite (NoDup_fst_unique _ _ _ (check_entries (requires1 "name"))
                 schema_fields_NoDup Hfc) by in_list.
      apply Hentries, requires1_same_required.
  - apply field_populated_same_get. unfold dict_get. simpl.
    rewrite lookup_insert_ne; [done|]. by intros ?%(inj py).
Qed.

Lemma X4_witness :
  ("languages", ["name"]) ∈ required_subfields
  ∧ record_full !! py "languages" =
      Some (PList [PDict (dict_of [("name", PStr (py "English"));
                                   ("level", PStr (py "Native"))])])
  ∧ _calculate_resume_completeness
      (PDict (<[py "languages" :=
                  PList [PDict (dict_of [("name", PStr (py "Bangla"))])]]>
                record_full))
    = _calculate_resume_completeness (PDict record_full).
Proof.
  assert (("languages", ["name"]) ∈ required_subfields) as Hf by in_list.
  assert (record_full !! py "languages" =
      Some (PList [PDict (dict_of [("name", PStr (py "English"));
                                   ("level", PStr (py "Native"))])]))
    as Hget by (vm_compute; reflexivity).
  split; [exact Hf|]. split; [exact Hget|].
  apply (X4_only_required_subfields_matter _ _ _ _ _ Hf Hget).
  constructor; [|constructor].
  eexists _, _. split; [reflexivity|]. split; [reflexivity|].
  intros k Hk. apply elem_of_cons in Hk as [->|Hk]; [vm_compute; reflexivity|].
  by apply elem_of_nil in Hk.
Defined.

(** ** More on the pipeline *)

(** The pipeline raises nothing but [HTTPException]. *)
Lemma pipeline_raises_http generate_content json_loads text_content e :
  extract_info_with_gemini generate_content json_loads text_content = Raise e →
  ∃ c d h, e = HTTPException c d h.
Proof.
  unfold extract_info_with_gemini, outer_except, failed_to_communicate.
  destruct (_ ≫= _) as [u|[]]; intros [= <-]; eauto.
Qed.

(** X5: when the model client raises, the pipeline reports a server-side
    (500) failure whose detail is "Failed to communicate with AI model: "
    followed by the text of the exception; nothing is decoded or scored. An
    [HTTPException] of the client would be raised again as it is. *)
Theorem X5_model_failure_is_reported
    (generate_content : pystr → result GenerateContentResponse)
    (json_loads : pystr → option pyval) (text_content : pystr) (e : exn) :
  generate_content (prompt text_content) = Raise e →
  ((∀ c d h, e ≠ HTTPException c d h) →
     extract_info_with_gemini generate_content json_loads text_content
     = Raise (HTTPException 500
                (py "Failed to communicate with AI model: " ++ exn_str e) [])
     ∧ kind_of (failed_to_communicate e) = Some ModelCallFailed)
  ∧ (∀ c d h, e = HTTPException c d h →
       extract_info_with_gemini generate_content json_loads text_content
       = Raise e).
Proof.
  intros Hgen. split.
  - intros Hne. split; [|apply kind_of_failed_to_communicate].
    unfold extract_info_with_gemini. rewrite Hgen. simpl.
    destruct e; try done. by destruct (Hne _ _ _ eq_refl).
  - intros c d h ->. unfold extract_info_with_gemini. by rewrite Hgen.
Qed.

Lemma X5_witness :
  (λ _ : pystr, Raise (ModelError (py "deadline exceeded")))
     (prompt (py "resume"))
  = (Raise (ModelError (py "deadline exceeded")) : result GenerateContentResponse)
  ∧ extract_info_with_gemini
      (λ _, Raise (ModelError (py "deadline exceeded"))) literal_loads
      (py "resume")
    = Raise (HTTPException 500
               (py "Failed to communicate with AI model: deadline exceeded") []).
Proof.
  split; [reflexivity|].
  destruct (X5_model_failure_is_reported
              (λ _, Raise (ModelError (py "deadline exceeded"))) literal_loads
              (py "resume") (ModelError (py "deadline exceeded")) eq_refl)
    as [Hother _].
  assert (∀ c d h, ModelError (py "deadline exceeded") ≠ HTTPException c d h)
    as Hne by done.
  destruct (Hother Hne) as [Hrun _]. exact Hrun.
Defined.

(** On a value that is not a [dict] the scorer raises at the first
    lookup. *)
Lemma score_not_dict v :
  ¬ is_dict v →
  _calculate_resume_completeness v
  = Raise (AttributeError
             (py ("'" +:+ type_name v +:+ "' object has no attribute 'get'"))).
Proof. destruct v; intros Hv; try reflexivity. by destruct Hv. Qed.

Lemma score_Ok_dict v r :
  _calculate_resume_completeness v = Ok r → is_dict v.
Proof.
  intros H. destruct v as [| | | | | |d]; [..|done]; exfalso.
  all: match type of H with
       | _calculate_resume_completeness ?x = _ =>
           rewrite (score_not_dict x (λ Hx, Hx)) in H
       end; discriminate H.
Qed.

(** X6: the pipeline returns a result exactly when the model client
    returned a response, a text was located in it, the trimmed text decoded
    and the scorer returned; the result then holds the decoded value as it
    is, with the percentage (between 0 and 100) and the missing list (a
    subsequence of the schema names) of the scorer. *)
Theorem X6_pipeline_success
    (generate_content : pystr → result GenerateContentResponse)
    (json_loads : pystr → option pyval) (text_content : pystr)
    (u : UploadResult) :
  (extract_info_with_gemini generate_content json_loads text_content = Ok u
   ↔ ∃ response generated_text,
       generate_content (prompt text_content) = Ok response
       ∧ locate_text response = Ok generated_text
       ∧ json_loads (strip generated_text) = Some (extractedData u)
       ∧ _calculate_resume_completeness (extractedData u)
         = Ok (completenessPercentage u, remainingFields u))
  ∧ (extract_info_with_gemini generate_content json_loads text_content = Ok u →
     is_dict (extractedData u)
     ∧ (0 ≤ completenessPercentage u ≤ 100)%Z
     ∧ remainingFields u `sublist_of` schema_fields).
Proof.
  assert (extract_info_with_gemini generate_content json_loads text_content = Ok u
   ↔ ∃ response generated_text,
       generate_content (prompt text_content) = Ok response
       ∧ locate_text response = Ok generated_text
       ∧ json_loads (strip generated_text) = Some (extractedData u)
       ∧ _calculate_resume_completeness (extractedData u)
         = Ok (completenessPercentage u, remainingFields u)) as Hiff.
  { unfold extract_info_with_gemini. split.
    - destruct (generate_content (prompt text_content)) as [response|e] eqn:Hgen;
        simpl; [|by destruct e].
      destruct (locate_text response) as [generated_text|e] eqn:Hloc;
        simpl; [|by destruct e].
      unfold parse_and_score.
      destruct (json_loads (strip generated_text)) as [v|] eqn:Hloads; [|done].
      destruct (_calculate_resume_completeness v) as [[pct missing]|e] eqn:Hs;
        simpl; [|by destruct e].
      intros [= <-]. exists response, generated_text.
      cbn [extractedData completenessPercentage remainingFields]. done.
    - intros (response & generated_text & Hgen & Hloc & Hloads & Hs).
      rewrite Hgen. simpl. rewrite Hloc. simpl. unfold parse_and_score.
      rewrite Hloads, Hs. simpl. by destruct u. }
  split; [exact Hiff|].
  intros (response & generated_text & _ & _ & _ & Hs)%Hiff.
  pose proof (score_Ok_dict _ _ Hs) as Hd.
  apply score_Ok in Hs as (_ & Hpct & Hmiss). split; [done|]. split.
  - rewrite Hpct. apply percentage_bounds,
      (populated_count_bounds _ completeness_criteria).
  - rewrite Hmiss. apply missing_of_sublist.
Qed.

Lemma kind_of_status e kind :
  kind_of e = Some kind →
  ∃ c d h, e = HTTPException c d h ∧ (c = 422 ∨ c = 500)%Z.
Proof.
  destruct e as [| | | |c d h]; try done. unfold kind_of.
  destruct (c =? HTTP_422_UNPROCESSABLE_ENTITY)%Z eqn:H422.
  { apply Z.eqb_eq in H422. intros _. exists c, d, h. split; [done|by left]. }
  destruct (c =? HTTP_500_INTERNAL_SERVER_ERROR)%Z eqn:H500; [|done].
  apply Z.eqb_eq in H500. intros _. exists c, d, h. split; [done|by right].
Qed.

(** X7: whatever the model client returns or raises (short of an
    [HTTPException] of its own), a failure of the pipeline is an
    [HTTPException] with status 422 or 500, of one of the three kinds. *)
Theorem X7_pipeline_failures_are_classified
    (generate_content : pystr → result GenerateContentResponse)
    (json_loads : pystr → option pyval) (text_content : pystr) (e : exn) :
  (∀ p c d h, generate_content p ≠ Raise (HTTPException c d h)) →
  extract_info_with_gemini generate_content json_loads text_content = Raise e →
  ∃ c d h kind,
    e = HTTPException c d h ∧ (c = 422 ∨ c = 500)%Z ∧ kind_of e = Some kind.
Proof.
  intros Hgen Hrun.
  destruct (pipeline_failure_kinds _ _ _ _ Hgen Hrun) as [kind Hkind].
  destruct (kind_of_status _ _ Hkind) as (c & d & h & -> & Hc).
  by exists c, d, h, kind.
Qed.

Lemma X7_witness :
  (∀ p c d h,
     (λ _ : pystr, Ok (response_with_part (py "[]"))) p
     ≠ Raise (HTTPException c d h))
  ∧ ∃ c d h kind,
      HTTPException 500
        (py "Failed to communicate with AI model: 'list' object has no attribute 'get'")
        []
      = HTTPException c d h
      ∧ (c = 422 ∨ c = 500)%Z
      ∧ kind_of
          (HTTPException 500
             (py "Failed to communicate with AI model: 'list' object has no attribute 'get'")
             [])
        = Some kind.
Proof.
  assert (∀ p c d h,
     (λ _ : pystr, Ok (response_with_part (py "[]"))) p
     ≠ Raise (HTTPException c d h)) as Hgen by done.
  split; [exact Hgen|].
  apply (X7_pipeline_failures_are_classified
           (λ _, Ok (response_with_part (py "[]"))) literal_loads (py "resume")
           _ Hgen).
  vm_compute. reflexivity.
Defined.

(** X8: when the first candidate has a content with a first part, the text
    of that part is what is decoded, whatever the flat [.text] holds (even
    if the part's text is empty); the flat text is used only when that path
    is absent and the flat text is not empty. *)
Theorem X8_structured_path_takes_precedence
    (response : GenerateContentResponse) :
  (∀ part, first_part response = Some part →
     locate_text response = Ok (part_text part)
     ∧ ∀ flat, locate_text {| candidates := candidates response; text := flat |}
               = locate_text response)
  ∧ (∀ t, first_part response = None → text response = Reads t → t ≠ [] →
       locate_text response = Ok t).
Proof.
  split.
  - intros part Hpart. rewrite locate_text_first_part, Hpart. split; [done|].
    intros flat. rewrite locate_text_first_part.
    change (first_part {| candidates := candidates response; text := flat |})
      with (first_part response).
    by rewrite Hpart.
  - intros t Hpart Htext Ht. rewrite locate_text_first_part, Hpart.
    unfold text_fallback. rewrite Htext. by rewrite bool_decide_eq_false_2.
Qed.

Lemma X8_witness :
  first_part (response_with_part (py "{}")) = Some {| part_text := py "{}" |}
  ∧ locate_text (response_with_part (py "{}")) = Ok (py "{}")
  ∧ locate_text {| candidates := candidates (response_with_part (py "{}"));
                   text := Reads (py "other") |}
    = locate_text (response_with_part (py "{}")).
Proof.
  split; [reflexivity|].
  destruct (proj1 (X8_structured_path_takes_precedence
                     (response_with_part (py "{}")))
              {| part_text := py "{}" |} eq_refl) as [Hloc Hflat].
  split; [exact Hloc|exact (Hflat (Reads (py "other")))].
Defined.

(** X9: whitespace before and after the model's text changes nothing: the
    text is decoded, scored and, when it does not decode, reported as if it
    came without it. *)
Theorem X9_surrounding_whitespace_is_ignored
    (json_loads : pystr → option pyval) (before generated_text after : pystr) :
  blank before → blank after →
  parse_and_score json_loads (before ++ generated_text ++ after)
  = parse_and_score json_loads generated_text.
Proof.
  intros Hb Ha. unfold parse_and_score, not_valid_json.
  by rewrite (strip_surrounded _ _ _ Hb Ha).
Qed.

Lemma X9_witness :
  blank (py "  ") ∧ blank (py newline)
  ∧ parse_and_score literal_loads (py "  " ++ py "{}" ++ py newline)
    = parse_and_score literal_loads (py "{}").
Proof.
  assert (blank (py "  ")) as Hb by (repeat constructor).
  assert (blank (py newline)) as Ha by (repeat constructor).
  split; [exact Hb|]. split; [exact Ha|].
  exact (X9_surrounding_whitespace_is_ignored literal_loads _ (py "{}") _ Hb Ha).
Defined.

(** X10: when the model's text decodes to a value that is not an object (a
    list, a string, a number, [true], [null]), the pipeline fails with the
    server-side (500) failure to communicate, whose detail names the type
    of the value. *)
Theorem X10_decoded_value_must_be_an_object
    (generate_content : pystr → result GenerateContentResponse)
    (json_loads : pystr → option pyval) (text_content : pystr)
    (response : GenerateContentResponse) (generated_text : pystr) (v : pyval) :
  generate_content (prompt text_content) = Ok response →
  locate_text response = Ok generated_text →
  json_loads (strip generated_text) = Some v →
  ¬ is_dict v →
  extract_info_with_gemini generate_content json_loads text_content
  = Raise (HTTPException 500
             (py "Failed to communicate with AI model: '"
              ++ py (type_name v) ++ py "' object has no attribute 'get'")
             []).
Proof.
  intros Hgen Hloc Hloads Hv. unfold extract_info_with_gemini.
  rewrite Hgen. simpl. rewrite Hloc. simpl. unfold parse_and_score.
  rewrite Hloads, (score_not_dict _ Hv). simpl.
  unfold failed_to_communicate. do 2 f_equal. unfold exn_str.
  by destruct v.
Qed.

Lemma X10_witness :
  literal_loads (strip (py " null ")) = Some PNone
  ∧ extract_info_with_gemini (λ _, Ok (response_with_part (py " null ")))
      literal_loads (py "resume")
    = Raise (HTTPException 500
               (py "Failed to communicate with AI model: '"
                ++ py (type_name PNone) ++ py "' object has no attribute 'get'")
               []).
Proof.
  assert (literal_loads (strip (py " null ")) = Some PNone) as Hloads
    by (vm_compute; reflexivity).
  split; [exact Hloads|].
  apply (X10_decoded_value_must_be_an_object
           (λ _, Ok (response_with_part (py " null "))) literal_loads
           (py "resume") (response_with_part (py " null ")) (py " null ") PNone
           eq_refl eq_refl Hloads).
  intros [].
Defined.

(** ** File names *)

Lemma rsplit1_not_elem sep s : sep ∉ s → rsplit1 sep s = [s].
Proof.
  induction s as [|c r IH]; [done|]. intros [Hc Hr]%not_elem_of_cons.
  simpl. rewrite (IH Hr). apply N.eqb_neq in Hc.
  by rewrite N.eqb_sym, Hc.
Qed.

(** [rsplit] cuts at the last separator. *)
Lemma rsplit1_last sep head tail :
  sep ∉ tail → rsplit1 sep (head ++ sep :: tail) = [head; tail].
Proof.
  intros Htail. induction head as [|c head IH]; simpl.
  - by rewrite (rsplit1_not_elem _ _ Htail), N.eqb_refl.
  - by rewrite IH.
Qed.

Lemma rfind_not_elem c s : c ∉ s → rfind c s = (-1)%Z.
Proof.
  induction s as [|x r IH]; [done|]. intros [Hx Hr]%not_elem_of_cons.
  simpl. rewrite (IH Hr). simpl. apply N.eqb_neq in Hx.
  by rewrite N.eqb_sym, Hx.
Qed.

Lemma rfind_last c head tail :
  c ∉ tail → rfind c (head ++ c :: tail) = Z.of_nat (length head).
Proof.
  intros Htail. induction head as [|x head IH].
  - simpl. by rewrite (rfind_not_elem _ _ Htail), N.eqb_refl.
  - cbn [app rfind]. rewrite IH.
    destruct (0 <=? Z.of_nat (length head))%Z eqn:Hle;
      [simpl length; lia|]. apply Z.leb_gt in Hle. lia.
Qed.

(** [basename] is the text after the last slash, or the whole name. *)
Lemma basename_spec p :
  ((slash ∉ p) ∧ basename p = p)
  ∨ (∃ dir base, p = dir ++ slash :: base ∧ (slash ∉ base) ∧ basename p = base).
Proof.
  destruct (decide (slash ∈ p)) as [Hin|Hnot].
  - right. apply list_elem_of_split_r in Hin as (dir & base & -> & Hbase).
    exists dir, base. split_and!; [done..|]. unfold basename.
    rewrite (rfind_last _ _ _ Hbase).
    replace (Z.to_nat (Z.of_nat (length dir) + 1)) with (length (dir ++ [slash]))
      by (rewrite length_app; simpl; lia).
    by rewrite (cons_middle slash dir base), app_assoc, drop_app_length.
  - left. split; [done|]. unfold basename. by rewrite (rfind_not_elem _ _ Hnot).
Qed.

Lemma ends_with_app s suffix : ends_with (s ++ suffix) suffix = true.
Proof. unfold ends_with. by rewrite reverse_app, starts_with_app. Qed.

(** [os.path.join] of the upload folder and a name without a slash. *)
Lemma join_upload_folder base :
  slash ∉ base → join UPLOAD_FOLDER base = py "uploads/" ++ base.
Proof.
  intros Hbase. unfold join.
  destruct base as [|c base]; [reflexivity|].
  apply not_elem_of_cons in Hbase as [Hc _].
  cbn [starts_with]. apply N.eqb_neq in Hc. by rewrite Hc.
Qed.

Section lowercase.
Context (unicode_lower : pystr → N → pystr → pystr).

Lemma lower_from_ascii before s :
  Forall (λ c, (c < 128)%N) s →
  lower_from unicode_lower before s = ascii_lower <$> s.
Proof.
  intros Hs. revert before. induction Hs as [|c s Hc _ IH]; intros before; [done|].
  cbn [lower_from]. apply N.ltb_lt in Hc. rewrite Hc, IH. done.
Qed.

(** The lowercase form of a string ends with the lowercase form of an
    ASCII ending of it. *)
Lemma lower_from_app_ascii before s ending :
  Forall (λ c, (c < 128)%N) ending →
  ∃ start, lower_from unicode_lower before (s ++ ending)
           = start ++ (ascii_lower <$> ending).
Proof.
  intros Hending. revert before. induction s as [|c s IH]; intros before.
  - exists []. by apply lower_from_ascii.
  - cbn [app lower_from]. destruct (IH (before ++ [c])) as [start ->].
    eexists. by rewrite app_assoc.
Qed.

Lemma lower_from_letters before s :
  lowercase_table_sound unicode_lower →
  (∀ x, x ∈ lower_from unicode_lower before s → x ∈ py "cdfopx") →
  Forall (λ c, (c < 128)%N) s.
Proof.
  intros Htable. revert before. induction s as [|c s IH]; intros before Hall;
    [constructor|].
  cbn [lower_from] in Hall. destruct (c <? 128)%N eqn:Hc.
  - constructor; [by apply N.ltb_lt|]. apply (IH (before ++ [c])).
    intros x Hx. apply Hall, elem_of_app. by right.
  - apply N.ltb_ge in Hc. destruct (Htable before c s Hc) as (x & Hx & Hnot).
    destruct Hnot. apply Hall, elem_of_app. by left.
Qed.

(** A string whose lowercase form is an allowed extension is that
    extension in some mix of upper and lower case. *)
Lemma lower_allowed s :
  lowercase_table_sound unicode_lower →
  lower unicode_lower s ∈ ALLOWED_EXTENSIONS ↔
  Forall (λ c, (c < 128)%N) s ∧ ascii_lower <$> s ∈ ALLOWED_EXTENSIONS.
Proof.
  intros Htable. unfold lower. split.
  - intros Hin.
    assert (Forall (λ c, (c < 128)%N) s) as Hascii.
    { apply (lower_from_letters []); [done|]. intros x Hx.
      unfold ALLOWED_EXTENSIONS in Hin.
      apply elem_of_cons in Hin as [Heq|Hin];
        [|apply elem_of_cons in Hin as [Heq|Hin]; [|by apply elem_of_nil in Hin]];
        rewrite Heq in Hx; revert Hx; vm_compute; intros Hx;
        repeat (apply elem_of_cons in Hx as [->|Hx]; [in_list|]);
        by apply elem_of_nil in Hx. }
    split; [done|]. by rewrite <- (lower_from_ascii []).
  - intros [Hascii Hin]. by rewrite lower_from_ascii.
Qed.
End lowercase.

(** ** The file-type test *)

(** The subscript of [allowed_file] is in range. *)
Lemma allowed_file_returns unicode_lower filename :
  ∃ b, allowed_file unicode_lower filename = Some b.
Proof.
  unfold allowed_file. case_bool_decide as Hdot; [|eauto].
  apply list_elem_of_split_r in Hdot as (stem & ext & -> & Hext).
  rewrite (rsplit1_last _ _ _ Hext). simpl. eauto.
Qed.

(** What [allowed_file] accepts. *)
Lemma allowed_file_spec unicode_lower filename :
  lowercase_table_sound unicode_lower →
  allowed_file unicode_lower filename = Some true
  ↔ ∃ stem ext,
      filename = stem ++ dot :: ext
      ∧ (dot ∉ ext)
      ∧ ascii_lower <$> ext ∈ ALLOWED_EXTENSIONS.
Proof.
  intros Htable. unfold allowed_file. case_bool_decide as Hdot.
  - apply list_elem_of_split_r in Hdot as (stem & ext & -> & Hext).
    rewrite (rsplit1_last _ _ _ Hext). simpl. split.
    + intros [= Hin]. apply bool_decide_eq_true in Hin.
      apply (lower_allowed _ _ Htable) in Hin as [_ Hin]. eauto.
    + intros (stem' & ext' & Heq & Hext' & Hin).
      assert (ext' = ext) as ->.
      { pose proof (rsplit1_last dot stem' ext' Hext') as H1.
        pose proof (rsplit1_last dot stem ext Hext) as H2.
        rewrite <- Heq in H1. congruence. }
      f_equal. apply bool_decide_eq_true.
      apply (lower_allowed _ _ Htable). split; [|done].
      unfold ALLOWED_EXTENSIONS in Hin. apply Forall_forall. intros c Hc.
      assert (ascii_lower c ∈ py "cdfopx") as Hlow.
      { apply (list_elem_of_fmap_2 ascii_lower) in Hc.
        apply elem_of_cons in Hin as [Heq'|Hin];
          [|apply elem_of_cons in Hin as [Heq'|Hin];
            [|by apply elem_of_nil in Hin]];
          rewrite Heq' in Hc; revert Hc; vm_compute; intros Hc;
          repeat (apply elem_of_cons in Hc as [->|Hc]; [in_list|]);
          by apply elem_of_nil in Hc. }
      revert Hlow. vm_compute (py "cdfopx"). unfold ascii_lower.
      destruct ((65 <=? c) && (c <=? 90))%N eqn:Hup.
      * apply andb_true_iff in Hup as [_ Hup%N.leb_le]. intros _. lia.
      * intros Hlow.
        repeat (apply elem_of_cons in Hlow as [->|Hlow]; [lia|]).
        by apply elem_of_nil in Hlow.
  - split; [done|]. intros (stem & ext & -> & _). destruct Hdot.
    apply elem_of_app. right. apply list_elem_of_here.
Qed.

(** X11: [allowed_file] never raises (the subscript is always in range),
    and it accepts a name exactly when the name holds a dot and the text
    after its last dot is [pdf] or [docx] in any mix of upper and lower
    case: a name without a dot, with a trailing dot or space, or with
    another last extension is refused. *)
Theorem X11_allowed_file_tests_last_extension
    (unicode_lower : pystr → N → pystr → pystr) (filename : pystr) :
  lowercase_table_sound unicode_lower →
  (∃ b, allowed_file unicode_lower filename = Some b)
  ∧ (allowed_file unicode_lower filename = Some true
     ↔ ∃ stem ext,
         filename = stem ++ dot :: ext
         ∧ (dot ∉ ext)
         ∧ ascii_lower <$> ext ∈ ALLOWED_EXTENSIONS).
Proof.
  intros Htable. split; [apply allowed_file_returns|].
  by apply allowed_file_spec.
Qed.

Lemma X11_witness :
  lowercase_table_sound unchanged_lower
  ∧ (allowed_file unchanged_lower (py "My.Resume.PdF") = Some true
     ↔ ∃ stem ext,
         py "My.Resume.PdF" = stem ++ dot :: ext
         ∧ (dot ∉ ext)
         ∧ ascii_lower <$> ext ∈ ALLOWED_EXTENSIONS).
Proof.
  assert (lowercase_table_sound unchanged_lower) as Htable.
  { intros before c after Hc. exists c. split; [apply list_elem_of_here|].
    vm_compute (py "cdfopx"). intros Hin.
    repeat (apply elem_of_cons in Hin as [->|Hin]; [lia|]).
    by apply elem_of_nil in Hin. }
  split; [exact Htable|].
  exact (proj2 (X11_allowed_file_tests_last_extension unchanged_lower
                  (py "My.Resume.PdF") Htable)).
Defined.

(** The letters of an allowed extension are ASCII, and none is a slash. *)
Lemma allowed_extension_chars ext :
  ascii_lower <$> ext ∈ ALLOWED_EXTENSIONS →
  Forall (λ c, (c < 128)%N ∧ c ≠ slash) ext.
Proof.
  intros Hin. apply Forall_forall. intros c Hc.
  assert (ascii_lower c ∈ py "cdfopx") as Hlow.
  { apply (list_elem_of_fmap_2 ascii_lower) in Hc. unfold ALLOWED_EXTENSIONS in Hin.
    apply elem_of_cons in Hin as [Heq|Hin];
      [|apply elem_of_cons in Hin as [Heq|Hin]; [|by apply elem_of_nil in Hin]];
      rewrite Heq in Hc; revert Hc; vm_compute; intros Hc;
      repeat (apply elem_of_cons in Hc as [->|Hc]; [in_list|]);
      by apply elem_of_nil in Hc. }
  revert Hlow. vm_compute (py "cdfopx"). unfold ascii_lower, slash.
  destruct ((65 <=? c) && (c <=? 90))%N eqn:Hup.
  - apply andb_true_iff in Hup as [Hlo%N.leb_le Hup%N.leb_le]. intros _. lia.
  - intros Hlow.
    repeat (apply elem_of_cons in Hlow as [->|Hlow]; [lia|]).
    by apply elem_of_nil in Hlow.
Qed.

Lemma basename_last dir base :
  slash ∉ base → basename (dir ++ slash :: base) = base.
Proof.
  intros Hbase. unfold basename. rewrite (rfind_last _ _ _ Hbase).
  replace (Z.to_nat (Z.of_nat (length dir) + 1)) with (length (dir ++ [slash]))
    by (rewrite length_app; simpl; lia).
  by rewrite (cons_middle slash dir base), app_assoc, drop_app_length.
Qed.

(** [basename] keeps an ending without a slash. *)
Lemma basename_keeps_ending s ending :
  slash ∉ ending → ∃ start, basename (s ++ ending) = start ++ ending.
Proof.
  intros Hending. destruct (decide (slash ∈ s)) as [Hin|Hnot].
  - apply list_elem_of_split_r in Hin as (dir & base & -> & Hbase).
    exists base. rewrite <- app_assoc. cbn [app].
    apply (basename_last dir (base ++ ending)).
    rewrite not_elem_of_app. done.
  - exists s. unfold basename. rewrite rfind_not_elem; [done|].
    rewrite not_elem_of_app. done.
Qed.

Lemma basename_no_slash p : slash ∉ basename p.
Proof.
  destruct (basename_spec p) as [[Hp ->]|(dir & base & _ & Hbase & ->)]; done.
Qed.

(** The last component of an accepted name keeps the extension, and its
    lowercase form ends with the dot and the lowercase extension. *)
Lemma allowed_basename unicode_lower filename :
  lowercase_table_sound unicode_lower →
  allowed_file unicode_lower filename = Some true →
  ∃ start ext before,
    basename filename = start ++ dot :: ext
    ∧ ascii_lower <$> ext ∈ ALLOWED_EXTENSIONS
    ∧ lower unicode_lower (basename filename)
      = before ++ dot :: (ascii_lower <$> ext).
Proof.
  intros Htable (stem & ext & -> & Hext & Hin)%allowed_file_spec; [|done].
  pose proof (allowed_extension_chars _ Hin) as Hchars.
  destruct (basename_keeps_ending stem (dot :: ext)) as [start Hbase].
  { apply not_elem_of_cons. split; [done|].
    intros Hs. rewrite Forall_forall in Hchars. by destruct (Hchars _ Hs). }
  exists start, ext.
  destruct (lower_from_app_ascii unicode_lower [] start (dot :: ext))
    as [before Hlow].
  { constructor; [done|]. eapply Forall_impl; [done|]. by intros c [? _]. }
  exists before. rewrite Hbase. done.
Qed.

(** X12: an accepted upload is always read by one of the two extractors,
    the one of its extension: the branch that leaves the text empty is
    never taken for it, although the extension test and the choice of the
    extractor are written apart (one on the name, one on its last
    component). *)
Theorem X12_accepted_upload_reaches_an_extractor
    (unicode_lower : pystr → N → pystr → pystr)
    (fitz_open docx_Document : pystr → lib_result (list pystr))
    (filename file_path : pystr) :
  lowercase_table_sound unicode_lower →
  allowed_file unicode_lower filename = Some true →
  ∃ start ext,
    basename filename = start ++ dot :: ext
    ∧ ((ascii_lower <$> ext = py "pdf"
        ∧ extract_text unicode_lower fitz_open docx_Document
            (basename filename) file_path
          = extract_text_from_pdf fitz_open file_path)
       ∨ (ascii_lower <$> ext = py "docx"
          ∧ extract_text unicode_lower fitz_open docx_Document
              (basename filename) file_path
            = extract_text_from_docx docx_Document file_path)).
Proof.
  intros Htable Hallowed.
  destruct (allowed_basename _ _ Htable Hallowed)
    as (start & ext & before & Hbase & Hin & Hlow).
  exists start, ext. split; [done|]. unfold extract_text. rewrite Hlow.
  unfold ALLOWED_EXTENSIONS in Hin.
  apply elem_of_cons in Hin as [Heq|Hin];
    [|apply elem_of_cons in Hin as [Heq|Hin]; [|by apply elem_of_nil in Hin]];
    rewrite Heq.
  - left. split; [done|].
    change (dot :: py "pdf") with (py ".pdf"). by rewrite ends_with_app.
  - right. split; [done|].
    change (dot :: py "docx") with (py ".docx"). rewrite ends_with_app.
    unfold ends_with at 1. rewrite reverse_app. reflexivity.
Qed.

Lemma X12_witness :
  lowercase_table_sound unchanged_lower
  ∧ allowed_file unchanged_lower (py "cv/2024/Jane.DOCX") = Some true
  ∧ ∃ start ext,
      basename (py "cv/2024/Jane.DOCX") = start ++ dot :: ext
      ∧ ((ascii_lower <$> ext = py "pdf"
          ∧ extract_text unchanged_lower (λ _, Failed []) (λ _, Done [py "Jane"])
              (basename (py "cv/2024/Jane.DOCX")) (py "uploads/Jane.DOCX")
            = extract_text_from_pdf (λ _, Failed []) (py "uploads/Jane.DOCX"))
         ∨ (ascii_lower <$> ext = py "docx"
            ∧ extract_text unchanged_lower (λ _, Failed []) (λ _, Done [py "Jane"])
                (basename (py "cv/2024/Jane.DOCX")) (py "uploads/Jane.DOCX")
              = extract_text_from_docx (λ _, Done [py "Jane"])
                  (py "uploads/Jane.DOCX"))).
Proof.
  assert (lowercase_table_sound unchanged_lower) as Htable.
  { intros before c after Hc. exists c. split; [apply list_elem_of_here|].
    vm_compute (py "cdfopx"). intros Hin.
    repeat (apply elem_of_cons in Hin as [->|Hin]; [lia|]).
    by apply elem_of_nil in Hin. }
  assert (allowed_file unchanged_lower (py "cv/2024/Jane.DOCX") = Some true)
    as Hallowed by (vm_compute; reflexivity).
  split; [exact Htable|]. split; [exact Hallowed|].
  exact (X12_accepted_upload_reaches_an_extractor _ _ _ _ _ Htable Hallowed).
Defined.

(** ** Text extraction and the upload route *)

Lemma blank_app a b : blank a → blank b → blank (a ++ b).
Proof. unfold blank. rewrite Forall_app. done. Qed.

Lemma blank_pages acc pages :
  blank acc → Forall blank pages →
  blank (foldl (λ text page_text, text ++ page_text) acc pages).
Proof.
  intros Hacc Hpages. revert acc Hacc.
  induction Hpages as [|page pages Hpage _ IH]; intros acc Hacc; [done|].
  simpl. apply IH. by apply blank_app.
Qed.

Lemma blank_join sep l : blank sep → Forall blank l → blank (str_join sep l).
Proof.
  intros Hsep. induction 1 as [|x rest Hx Hrest IH]; [constructor|].
  destruct rest as [|y rest]; [done|].
  change (str_join sep (x :: y :: rest))
    with (x ++ sep ++ str_join sep (y :: rest)).
  auto using blank_app.
Qed.

Section upload.
Context (unicode_lower : pystr → N → pystr → pystr)
        (fitz_open docx_Document : pystr → lib_result (list pystr))
        (save_upload : pystr → lib_result ())
        (generate_content : pystr → result GenerateContentResponse)
        (json_loads : pystr → option pyval).

(** The extractors raise nothing but a server-side [HTTPException]. *)
Lemma extract_text_raises filename file_path e :
  extract_text unicode_lower fitz_open docx_Document filename file_path = Raise e →
  ∃ d, e = HTTPException 500 d [].
Proof.
  unfold extract_text, extract_text_from_pdf, extract_text_from_docx.
  repeat case_match; intros [= <-]; eauto.
Qed.

(** The route once the name is accepted and the file saved. *)
Lemma upload_saved filename :
  allowed_file unicode_lower filename = Some true →
  save_upload (upload_path filename) = Done () →
  upload_resume unicode_lower fitz_open docx_Document save_upload
    generate_content json_loads filename =
    Some
      (match extract_text unicode_lower fitz_open docx_Document (basename filename) (upload_path filename) with
       | Ok resume_text =>
           if bool_decide (strip resume_text = [])
           then Raise (HTTPException 400
                         (py "Could not extract text from the document or document is empty.")
                         [])
           else route_except "Failed to process resume with AI: "
                  (extract_info_with_gemini generate_content json_loads
                     resume_text)
       | Raise e => Raise e
       end).
Proof.
  intros Hallowed Hsave. unfold upload_resume. rewrite Hallowed. simpl.
  rewrite Hsave. f_equal.
  destruct (extract_text unicode_lower fitz_open docx_Document (basename filename) (upload_path filename))
    as [resume_text|e] eqn:Hread; simpl.
  - by case_bool_decide.
  - by destruct (extract_text_raises _ _ _ Hread) as [d ->].
Qed.

(** The last [except] clause of the route never applies. *)
Lemma route_except_pipeline prefix text_content :
  route_except prefix
    (extract_info_with_gemini generate_content json_loads text_content)
  = extract_info_with_gemini generate_content json_loads text_content.
Proof.
  destruct (extract_info_with_gemini _ _ _) as [u|e] eqn:Hrun; [done|].
  by destruct (pipeline_raises_http _ _ _ _ Hrun) as (c & d & h & ->).
Qed.

(** X13: the upload is written directly inside the upload folder, under
    the last component of the name it came with: whatever directories the
    name holds are dropped, so that no name reaches outside the folder;
    and the last component of an accepted name keeps its extension. *)
Theorem X13_upload_stays_in_upload_folder (filename : pystr) :
  upload_path filename = py "uploads/" ++ basename filename
  ∧ (slash ∉ basename filename)
  ∧ basename filename `suffix_of` filename
  ∧ (lowercase_table_sound unicode_lower →
     allowed_file unicode_lower filename = Some true →
     ∃ start ext,
       basename filename = start ++ dot :: ext
       ∧ ascii_lower <$> ext ∈ ALLOWED_EXTENSIONS).
Proof.
  split_and!.
  - apply join_upload_folder, basename_no_slash.
  - apply basename_no_slash.
  - apply suffix_drop.
  - intros Htable Hallowed.
    destruct (allowed_basename _ _ Htable Hallowed)
      as (start & ext & _ & Hbase & Hin & _).
    eauto.
Qed.

(** X14: a name without an allowed last extension is refused with 400
    "Unsupported file type", whatever the file holds: nothing is saved,
    read or sent to the model. *)
Theorem X14_unsupported_name_is_refused (filename : pystr) :
  lowercase_table_sound unicode_lower →
  (¬ ∃ stem ext,
       filename = stem ++ dot :: ext
       ∧ (dot ∉ ext)
       ∧ ascii_lower <$> ext ∈ ALLOWED_EXTENSIONS) →
  upload_resume unicode_lower fitz_open docx_Document save_upload
    generate_content json_loads filename
  = Some (Raise (HTTPException 400
                   (py "Unsupported file type. Allowed types are PDF and DOCX.")
                   [])).
Proof.
  intros Htable Hname. unfold upload_resume.
  destruct (allowed_file_returns unicode_lower filename) as [[] Hb].
  - by apply allowed_file_spec in Hb.
  - by rewrite Hb.
Qed.

(** X15: when the text read from an accepted and saved upload is empty or
    whitespace, the route answers 400 "Could not extract text" and the model
    is not called; this is what a PDF whose pages hold no text and a DOCX
    whose paragraphs are blank get. *)
Theorem X15_blank_document_is_refused (filename : pystr) :
  (∀ resume_text,
     allowed_file unicode_lower filename = Some true →
     save_upload (upload_path filename) = Done () →
     extract_text unicode_lower fitz_open docx_Document (basename filename) (upload_path filename) = Ok resume_text →
     blank resume_text →
     upload_resume unicode_lower fitz_open docx_Document save_upload
    generate_content json_loads filename
     = Some (Raise (HTTPException 400
                      (py "Could not extract text from the document or document is empty.")
                      [])))
  ∧ (∀ file_path pages,
       fitz_open file_path = Done pages → Forall blank pages →
       ∃ resume_text,
         extract_text_from_pdf fitz_open file_path = Ok resume_text
         ∧ blank resume_text)
  ∧ (∀ file_path paragraphs,
       docx_Document file_path = Done paragraphs → Forall blank paragraphs →
       ∃ resume_text,
         extract_text_from_docx docx_Document file_path = Ok resume_text
         ∧ blank resume_text).
Proof.
  split_and!.
  - intros resume_text Hallowed Hsave Hread Hblank.
    rewrite (upload_saved _ Hallowed Hsave), Hread.
    by rewrite bool_decide_eq_true_2 by (by apply strip_nil_iff).
  - intros file_path pages Hopen Hpages. unfold extract_text_from_pdf.
    rewrite Hopen. eexists. split; [done|].
    apply blank_pages; [apply Forall_nil_2|done].
  - intros file_path paragraphs Hopen Hparagraphs.
    unfold extract_text_from_docx. rewrite Hopen. eexists. split; [done|].
    apply blank_join; [|done]. repeat constructor.
Qed.

(** X16: the route returns a result exactly when the name is accepted, the
    file is saved, the extractor returns a text that is not blank and the
    pipeline returns on that text; the result is the pipeline's. *)
Theorem X16_upload_success (filename : pystr) (u : UploadResult) :
  upload_resume unicode_lower fitz_open docx_Document save_upload
    generate_content json_loads filename = Some (Ok u)
  ↔ allowed_file unicode_lower filename = Some true
    ∧ save_upload (upload_path filename) = Done ()
    ∧ ∃ resume_text,
        extract_text unicode_lower fitz_open docx_Document (basename filename) (upload_path filename) = Ok resume_text
        ∧ ¬ blank resume_text
        ∧ extract_info_with_gemini generate_content json_loads resume_text
          = Ok u.
Proof.
  split.
  - intros Hrun.
    destruct (allowed_file_returns unicode_lower filename) as [[] Hallowed];
      [|by unfold upload_resume in Hrun; rewrite Hallowed in Hrun].
    destruct (save_upload (upload_path filename)) as [[]|msg] eqn:Hsave;
      [|by unfold upload_resume in Hrun; rewrite Hallowed in Hrun;
           simpl in Hrun; rewrite Hsave in Hrun].
    rewrite (upload_saved _ Hallowed Hsave) in Hrun.
    destruct (extract_text unicode_lower fitz_open docx_Document (basename filename) (upload_path filename))
      as [resume_text|e] eqn:Hread; [|done].
    case_bool_decide as Hstrip; [done|].
    rewrite route_except_pipeline in Hrun. injection Hrun as Hrun.
    split; [done|]. split; [done|]. exists resume_text.
    split; [done|]. split; [|done]. by rewrite <- strip_nil_iff.
  - intros (Hallowed & Hsave & resume_text & Hread & Hblank & Hrun).
    rewrite (upload_saved _ Hallowed Hsave), Hread.
    rewrite bool_decide_eq_false_2 by (by rewrite strip_nil_iff).
    by rewrite route_except_pipeline, Hrun.
Qed.

(** X17: the route lets no [IndexError] escape, and a failure of it is an
    [HTTPException] with status 400, 422 or 500 (when the model client
    raises no [HTTPException] of its own). *)
Theorem X17_upload_failures (filename : pystr) :
  (∀ p c d h, generate_content p ≠ Raise (HTTPException c d h)) →
  ∃ r, upload_resume unicode_lower fitz_open docx_Document save_upload
    generate_content json_loads filename = Some r
       ∧ ∀ e, r = Raise e →
              ∃ c d h, e = HTTPException c d h
                       ∧ (c = 400 ∨ c = 422 ∨ c = 500)%Z.
Proof.
  intros Hgen.
  destruct (allowed_file_returns unicode_lower filename) as [[] Hallowed].
  - destruct (save_upload (upload_path filename)) as [[]|msg] eqn:Hsave.
    + rewrite (upload_saved _ Hallowed Hsave). eexists. split; [done|].
      intros e.
      destruct (extract_text unicode_lower fitz_open docx_Document (basename filename) (upload_path filename))
        as [resume_text|e'] eqn:Hread.
      * case_bool_decide; [intros [= <-]; eexists _, _, _; eauto|].
        rewrite route_except_pipeline. intros Hrun.
        destruct (pipeline_failure_kinds _ _ _ _ Hgen Hrun) as [kind Hkind].
        destruct (kind_of_status _ _ Hkind) as (c & d & h & -> & [->| ->]);
          eexists _, _, _; eauto.
      * destruct (extract_text_raises _ _ _ Hread) as [d ->].
        intros [= <-]. eexists _, _, _; eauto.
    + unfold upload_resume. rewrite Hallowed. simpl. rewrite Hsave.
      eexists. split; [done|]. intros e [= <-]. eexists _, _, _; eauto.
  - unfold upload_resume. rewrite Hallowed. simpl.
    eexists. split; [done|]. intros e [= <-]. eexists _, _, _; eauto.
Qed.

(** X18: a failure of saving or of reading the document is reported as a
    server-side (500) failure that carries the text of the library's
    exception under the name of the step that failed; it is not wrapped
    again on its way out, and the model is not called. *)
Theorem X18_library_failures_are_reported (filename msg : pystr) :
  allowed_file unicode_lower filename = Some true →
  (save_upload (upload_path filename) = Failed msg →
   upload_resume unicode_lower fitz_open docx_Document save_upload
    generate_content json_loads filename
   = Some (Raise (HTTPException 500 (py "Error saving uploaded file: " ++ msg) [])))
  ∧ (save_upload (upload_path filename) = Done () →
     ends_with (lower unicode_lower (basename filename)) (py ".pdf") = true →
     fitz_open (upload_path filename) = Failed msg →
     upload_resume unicode_lower fitz_open docx_Document save_upload
    generate_content json_loads filename
     = Some (Raise (HTTPException 500
                      (py "Error extracting text from PDF: " ++ msg) [])))
  ∧ (save_upload (upload_path filename) = Done () →
     ends_with (lower unicode_lower (basename filename)) (py ".pdf") = false →
     ends_with (lower unicode_lower (basename filename)) (py ".docx") = true →
     docx_Document (upload_path filename) = Failed msg →
     upload_resume unicode_lower fitz_open docx_Document save_upload
    generate_content json_loads filename
     = Some (Raise (HTTPException 500
                      (py "Error extracting text from DOCX: " ++ msg) []))).
Proof.
  intros Hallowed. split_and!.
  - intros Hsave. unfold upload_resume. rewrite Hallowed. simpl.
    by rewrite Hsave.
  - intros Hsave Hpdf Hopen. rewrite (upload_saved _ Hallowed Hsave).
    unfold extract_text, extract_text_from_pdf. by rewrite Hpdf, Hopen.
  - intros Hsave Hpdf Hdocx Hopen. rewrite (upload_saved _ Hallowed Hsave).
    unfold extract_text, extract_text_from_docx. by rewrite Hpdf, Hdocx, Hopen.
Qed.
End upload.

Lemma unchanged_lower_sound : lowercase_table_sound unchanged_lower.
Proof.
  intros before c after Hc. exists c. split; [apply list_elem_of_here|].
  vm_compute (py "cdfopx"). intros Hin.
  repeat (apply elem_of_cons in Hin as [->|Hin]; [lia|]).
  by apply elem_of_nil in Hin.
Qed.

Lemma X13_witness :
  lowercase_table_sound unchanged_lower
  ∧ allowed_file unchanged_lower (py "../../etc/passwd.pdf") = Some true
  ∧ upload_path (py "../../etc/passwd.pdf") = py "uploads/passwd.pdf"
  ∧ ∃ start ext,
      basename (py "../../etc/passwd.pdf") = start ++ dot :: ext
      ∧ ascii_lower <$> ext ∈ ALLOWED_EXTENSIONS.
Proof.
  assert (allowed_file unchanged_lower (py "../../etc/passwd.pdf") = Some true)
    as Hallowed by (vm_compute; reflexivity).
  split; [exact unchanged_lower_sound|]. split; [exact Hallowed|].
  destruct (X13_upload_stays_in_upload_folder unchanged_lower
              (py "../../etc/passwd.pdf")) as (Hpath & _ & _ & Hext).
  split; [exact Hpath|]. exact (Hext unchanged_lower_sound Hallowed).
Defined.

Lemma X14_witness :
  lowercase_table_sound unchanged_lower
  ∧ (¬ ∃ stem ext,
         py "resume.pdf.exe" = stem ++ dot :: ext
         ∧ (dot ∉ ext)
         ∧ ascii_lower <$> ext ∈ ALLOWED_EXTENSIONS)
  ∧ upload_resume unchanged_lower pdf_two_pages pdf_two_pages disk_ok
      model_empty_object literal_loads (py "resume.pdf.exe")
    = Some (Raise (HTTPException 400
                     (py "Unsupported file type. Allowed types are PDF and DOCX.")
                     [])).
Proof.
  assert (¬ ∃ stem ext,
         py "resume.pdf.exe" = stem ++ dot :: ext
         ∧ (dot ∉ ext)
         ∧ ascii_lower <$> ext ∈ ALLOWED_EXTENSIONS) as Hname.
  { intros H. apply (allowed_file_spec unchanged_lower) in H;
      [|exact unchanged_lower_sound].
    vm_compute in H. discriminate H. }
  split; [exact unchanged_lower_sound|]. split; [exact Hname|].
  exact (X14_unsupported_name_is_refused unchanged_lower pdf_two_pages
           pdf_two_pages disk_ok model_empty_object literal_loads
           (py "resume.pdf.exe") unchanged_lower_sound Hname).
Defined.

Lemma X15_witness :
  allowed_file unchanged_lower (py "scan.pdf") = Some true
  ∧ blank (py " " ++ py newline)
  ∧ upload_resume unchanged_lower pdf_without_text pdf_two_pages disk_ok
      model_empty_object literal_loads (py "scan.pdf")
    = Some (Raise (HTTPException 400
                     (py "Could not extract text from the document or document is empty.")
                     [])).
Proof.
  assert (allowed_file unchanged_lower (py "scan.pdf") = Some true)
    as Hallowed by (vm_compute; reflexivity).
  assert (blank (py " " ++ py newline)) as Hblank by (repeat constructor).
  split; [exact Hallowed|]. split; [exact Hblank|].
  destruct (X15_blank_document_is_refused unchanged_lower pdf_without_text
              pdf_two_pages disk_ok model_empty_object literal_loads
              (py "scan.pdf")) as [Hrefused _].
  exact (Hrefused (py " " ++ py newline) Hallowed eq_refl eq_refl Hblank).
Defined.

Lemma X16_witness :
  allowed_file unchanged_lower (py "cv.pdf") = Some true
  ∧ ¬ blank (py "Jane Doe" ++ py " Engineer")
  ∧ upload_resume unchanged_lower pdf_two_pages pdf_two_pages disk_ok
      model_empty_object literal_loads (py "cv.pdf")
    = Some (Ok {| extractedData := PDict ∅;
                  completenessPercentage := 0;
                  remainingFields := schema_fields |}).
Proof.
  assert (allowed_file unchanged_lower (py "cv.pdf") = Some true)
    as Hallowed by (vm_compute; reflexivity).
  assert (¬ blank (py "Jane Doe" ++ py " Engineer")) as Hblank.
  { intros H. apply Forall_cons in H as [H _]. vm_compute in H. discriminate H. }
  split; [exact Hallowed|]. split; [exact Hblank|].
  apply (X16_upload_success unchanged_lower pdf_two_pages pdf_two_pages
           disk_ok model_empty_object literal_loads).
  split; [exact Hallowed|]. split; [reflexivity|].
  exists (py "Jane Doe" ++ py " Engineer").
  split; [vm_compute; reflexivity|]. split; [exact Hblank|].
  vm_compute. reflexivity.
Defined.

Lemma X17_witness :
  (∀ p c d h, model_empty_object p ≠ Raise (HTTPException c d h))
  ∧ ∃ r, upload_resume unchanged_lower pdf_two_pages pdf_two_pages disk_full
           model_empty_object literal_loads (py "cv.pdf") = Some r
         ∧ ∀ e, r = Raise e →
                ∃ c d h, e = HTTPException c d h
                         ∧ (c = 400 ∨ c = 422 ∨ c = 500)%Z.
Proof.
  assert (∀ p c d h, model_empty_object p ≠ Raise (HTTPException c d h))
    as Hgen by done.
  split; [exact Hgen|].
  exact (X17_upload_failures unchanged_lower pdf_two_pages pdf_two_pages
           disk_full model_empty_object literal_loads (py "cv.pdf") Hgen).
Defined.

Lemma X18_witness :
  allowed_file unchanged_lower (py "cv.pdf") = Some true
  ∧ disk_full (upload_path (py "cv.pdf")) = Failed (py "No space left on device")
  ∧ upload_resume unchanged_lower pdf_two_pages pdf_two_pages disk_full
      model_empty_object literal_loads (py "cv.pdf")
    = Some (Raise (HTTPException 500
                     (py "Error saving uploaded file: "
                      ++ py "No space left on device") [])).
Proof.
  assert (allowed_file unchanged_lower (py "cv.pdf") = Some true)
    as Hallowed by (vm_compute; reflexivity).
  split; [exact Hallowed|]. split; [reflexivity|].
  destruct (X18_library_failures_are_reported unchanged_lower pdf_two_pages
              pdf_two_pages disk_full model_empty_object literal_loads
              (py "cv.pdf") (py "No space left on device") Hallowed)
    as [Hsave _].
  exact (Hsave eq_refl).
Defined.
